(** * pypb.dist: the MW4S pattern (Multiple Worker, Single Source, Single Sink)

    A shallow embedding of [pypb/dist.py].  The three classes [Source],
    [Sink] and [Worker] become three modules, each with a record for the
    object's attributes and one monadic action per method.  The ZeroMQ
    sockets are modelled by the messages their peers deliver ([rx]) and a
    chronological [trace] of what the object did on them.

    What is taken from ZeroMQ and pickle, which are not part of the module:
    an object arrives as it was sent; [send_pyobj] returns at once;
    [recv_pyobj] waits until a message is there; a socket refuses to be used
    after its [close()].  The alternation of requests and replies on a
    socket is not policed: the methods keep to it. *)

From Stdlib Require Import ZArith List String Bool Lia.
Import ListNotations.
Open Scope Z_scope.

(** ** Python values that travel on the wire *)

(** The classes declared in [dist.py]; every one derives from [Message]. *)
Inductive cls : Type :=
| Message
| WorkerJoinMessage
| WorkerExitedMessage
| NoMoreJobsMessage
| SourceExitedMessage.

Definition cls_eqb (a b : cls) : bool :=
  match a, b with
  | Message, Message
  | WorkerJoinMessage, WorkerJoinMessage
  | WorkerExitedMessage, WorkerExitedMessage
  | NoMoreJobsMessage, NoMoreJobsMessage
  | SourceExitedMessage, SourceExitedMessage => true
  | _, _ => false
  end.

(** [issubclass a b]: the hierarchy is flat, [Message] being the only base. *)
Definition issubclass (a b : cls) : bool :=
  cls_eqb a b || cls_eqb b Message.

Set Warnings "-register-all".

(** What [send_pyobj] accepts and [recv_pyobj] returns: [None], plain
    structured data, or an instance of one of the message classes (which
    carry no attributes). *)
Inductive pyobj : Type :=
| PyNone
| PyBool (b : bool)
| PyInt (z : Z)
| PyStr (s : string)
| PyList (l : list pyobj)
| PyDict (kv : list (pyobj * pyobj))
| PyInst (c : cls).

(** [o is None] *)
Definition is_None (o : pyobj) : bool :=
  match o with PyNone => true | _ => false end.

(** [isinstance(o, c)] *)
Definition isinstance (o : pyobj) (c : cls) : bool :=
  match o with PyInst c' => issubclass c' c | _ => false end.

(** ** Exceptions and outcomes *)

Inductive exn : Type :=
| Error (msg : string) (o : pyobj)   (* dist.Error, "<msg> {!r}".format(o) *)
| StopIteration
| ZMQError.                         (* use of a socket after its close() *)

(** A call returns, raises, never returns because a [recv_pyobj] waits for
    a message that does not come, or exhausts the fuel of the model. *)
Inductive outcome (A : Type) : Type :=
| Ok (a : A)
| Raise (e : exn)
| Blocked
| OutOfFuel.
Arguments Ok {A} a.
Arguments Raise {A} e.
Arguments Blocked {A}.
Arguments OutOfFuel {A}.

(** ** The state-and-exception monad of a method body

    The state is kept when an exception is raised: attribute assignments
    done before a [raise] stay visible on the object. *)

Definition M (St A : Type) : Type := St -> outcome A * St.

Definition ret {St A} (a : A) : M St A := fun s => (Ok a, s).

Definition bind {St A B} (c : M St A) (k : A -> M St B) : M St B :=
  fun s =>
    match c s with
    | (Ok a, s') => k a s'
    | (Raise e, s') => (Raise e, s')
    | (Blocked, s') => (Blocked, s')
    | (OutOfFuel, s') => (OutOfFuel, s')
    end.

Definition raise {St A} (e : exn) : M St A := fun s => (Raise e, s).

Definition modify {St} (f : St -> St) : M St unit := fun s => (Ok tt, f s).

(** [if b: c] with no [else] branch. *)
Definition when {St} (b : bool) (c : M St unit) : M St unit :=
  if b then c else ret tt.

Declare Scope py_scope.
Delimit Scope py_scope with py.
Notation "x <- c ;; k" := (bind c (fun x => k))
  (at level 61, c at next level, right associativity) : py_scope.
Notation "c ;; k" := (bind c (fun _ => k))
  (at level 61, right associativity) : py_scope.
Open Scope py_scope.

(** How one iteration of a [while] body ends: [continue] (or falling off
    the end of the body), or [return a] out of the enclosing method. *)
Inductive ctl (A : Type) : Type :=
| Continue
| Return (a : A).
Arguments Continue {A}.
Arguments Return {A} a.

(** [while cond: body].  [Some a] when the body returned [a], [None] when
    the condition became false. *)
Fixpoint while {St A} (fuel : nat) (cond : St -> bool) (body : M St (ctl A))
  : M St (option A) :=
  fun s =>
    match fuel with
    | O => (OutOfFuel, s)
    | S fuel' =>
        if cond s then
          match body s with
          | (Ok Continue, s') => while fuel' cond body s'
          | (Ok (Return a), s') => (Ok (Some a), s')
          | (Raise e, s') => (Raise e, s')
          | (Blocked, s') => (Blocked, s')
          | (OutOfFuel, s') => (OutOfFuel, s')
          end
        else (Ok None, s)
    end.

(** ** The transport: REQ and REP sockets *)

Inductive sockname : Type := Ssock | Tsock.

Inductive event : Type :=
| Recv (k : sockname) (o : pyobj)
| Send (k : sockname) (o : pyobj)
| Close (k : sockname)
| Sleep (seconds : Z).

(** A socket as its owner sees it: [rx] holds the messages the peers
    deliver to it, in arrival order (requests for a REP socket, replies for
    a REQ socket); objects arrive as they were sent. *)
Record socket : Type := mkSocket {
  rx : list pyobj;
  sock_closed : bool
}.

(** [rep_socket(addr)] and [req_socket(addr)]: a fresh open socket; the
    argument of the model is what the peers will deliver to it. *)
Definition rep_socket (incoming : list pyobj) : socket := mkSocket incoming false.
Definition req_socket (incoming : list pyobj) : socket := mkSocket incoming false.

(** Access to one socket attribute of an object, and to the object's trace. *)
Record sockref (St : Type) : Type := mkSockref {
  sock_name : sockname;
  sock_get : St -> socket;
  sock_set : socket -> St -> St
}.
Arguments sock_name {St} _.
Arguments sock_get {St} _ _.
Arguments sock_set {St} _ _ _.

Class Traced (St : Type) : Type := {
  trace_of : St -> list event;
  with_trace : list event -> St -> St
}.

Definition log {St} `{Traced St} (e : event) (s : St) : St :=
  with_trace (trace_of s ++ [e]) s.

(** [sock.recv_pyobj()]: waits for the next message. *)
Definition recv_pyobj {St} `{Traced St} (r : sockref St) : M St pyobj :=
  fun s =>
    let k := sock_get r s in
    if sock_closed k then (Raise ZMQError, s)
    else match rx k with
         | [] => (Blocked, s)
         | o :: q => (Ok o, log (Recv (sock_name r) o) (sock_set r (mkSocket q false) s))
         end.

(** [sock.send_pyobj(o)] *)
Definition send_pyobj {St} `{Traced St} (r : sockref St) (o : pyobj) : M St unit :=
  fun s =>
    if sock_closed (sock_get r s) then (Raise ZMQError, s)
    else (Ok tt, log (Send (sock_name r) o) s).

(** [sock.close()] *)
Definition sock_close {St} `{Traced St} (r : sockref St) : M St unit :=
  fun s =>
    let k := sock_get r s in
    (Ok tt, log (Close (sock_name r)) (sock_set r (mkSocket (rx k) true) s)).

(** [time.sleep(seconds)] *)
Definition sleep {St} `{Traced St} (seconds : Z) : M St unit :=
  modify (log (Sleep seconds)).

(** Buffer time letting the sink request socket at source to close. *)
Definition CLOSESYNC : Z := 15.

(** ** class Source *)

Module Source.

(** Source(saddr, taddr) - job source socket. *)
Record t : Type := mk {
  saddr : string;
  taddr : string;
  ssock : socket;
  tsock : socket;
  nworkers : Z;
  closed : bool;
  trace : list event
}.

Definition set_ssock (k : socket) (s : t) : t :=
  mk (saddr s) (taddr s) k (tsock s) (nworkers s) (closed s) (trace s).
Definition set_tsock (k : socket) (s : t) : t :=
  mk (saddr s) (taddr s) (ssock s) k (nworkers s) (closed s) (trace s).
Definition set_nworkers (n : Z) (s : t) : t :=
  mk (saddr s) (taddr s) (ssock s) (tsock s) n (closed s) (trace s).
Definition set_closed (b : bool) (s : t) : t :=
  mk (saddr s) (taddr s) (ssock s) (tsock s) (nworkers s) b (trace s).
Definition set_trace (l : list event) (s : t) : t :=
  mk (saddr s) (taddr s) (ssock s) (tsock s) (nworkers s) (closed s) l.

#[global] Instance traced : Traced t := {| trace_of := trace; with_trace := set_trace |}.

Definition self_ssock : sockref t := mkSockref t Ssock ssock set_ssock.
Definition self_tsock : sockref t := mkSockref t Tsock tsock set_tsock.

(** [__init__]: the two arguments after the addresses are what the
    workers will send to the reply socket and what the sink will answer on
    the request socket. *)
Definition init (saddr taddr : string) (requests replies : list pyobj) : t :=
  mk saddr taddr (rep_socket requests) (req_socket replies) 0 false [].

(** Every iteration of the loops below receives one request, so the
    number of pending requests bounds the number of iterations. *)
Definition fuel (s : t) : nat := S (List.length (rx (ssock s))).

Definition send_body (task : pyobj) : M t (ctl unit) :=
  req <- recv_pyobj self_ssock ;;
  if is_None req then
    send_pyobj self_ssock task ;;
    ret (Return tt)
  else if isinstance req WorkerJoinMessage then
    send_pyobj self_ssock PyNone ;;
    modify (fun s => set_nworkers (nworkers s + 1) s) ;;
    ret Continue
  else if isinstance req WorkerExitedMessage then
    send_pyobj self_ssock PyNone ;;
    modify (fun s => set_nworkers (nworkers s - 1) s) ;;
    ret Continue
  else
    raise (Error "Invalid request"%string req).

(** Send a task to a worker. *)
Definition send (task : pyobj) : M t unit :=
  fun s =>
    (_ <- while (fuel s) (fun _ => true) (send_body task) ;;
     ret tt) s.

Definition close_body : M t (ctl unit) :=
  req <- recv_pyobj self_ssock ;;
  if is_None req then
    send_pyobj self_ssock (PyInst NoMoreJobsMessage) ;;
    ret Continue
  else if isinstance req WorkerJoinMessage then
    send_pyobj self_ssock PyNone ;;
    modify (fun s => set_nworkers (nworkers s + 1) s) ;;
    ret Continue
  else if isinstance req WorkerExitedMessage then
    send_pyobj self_ssock PyNone ;;
    modify (fun s => set_nworkers (nworkers s - 1) s) ;;
    ret Continue
  else
    raise (Error "Invalid request"%string req).

(** The [while self.nworkers > 0] loop of [close]. *)
Definition drain : M t (option unit) :=
  fun s => while (fuel s) (fun s' => 0 <? nworkers s') close_body s.

(** What follows the loop: inform sink that source has exited, and close
    the sockets. *)
Definition inform_sink : M t unit :=
  send_pyobj self_tsock (PyInst SourceExitedMessage) ;;
  rep <- recv_pyobj self_tsock ;;
  when (negb (is_None rep))
    (raise (Error "Invalid response"%string rep)) ;;
  sock_close self_tsock ;;
  sock_close self_ssock.

(** Wait for all workers to finish and send close signal to sink. *)
Definition close : M t unit :=
  fun s =>
    if closed s then (Ok tt, s)
    else
      (modify (set_closed true) ;;
       _ <- drain ;;
       inform_sink) s.

(** [__enter__], [__exit__] and [__del__]: the object is its own context
    manager; leaving the block, and finalisation, call [close()].
    [__exit__] returns [None], which is false: it suppresses no exception. *)
Definition __enter__ : M t unit := ret tt.
Definition __exit__ (exc : option exn) : M t bool := close ;; ret false.
Definition __del__ : M t unit := close.

End Source.

(** ** class Sink *)

Module Sink.

(** Sink(taddr) -- job sink socket. *)
Record t : Type := mk {
  taddr : string;
  tsock : socket;
  nworkers : Z;
  source_closed : bool;
  closed : bool;
  trace : list event
}.

Definition set_tsock (k : socket) (s : t) : t :=
  mk (taddr s) k (nworkers s) (source_closed s) (closed s) (trace s).
Definition set_nworkers (n : Z) (s : t) : t :=
  mk (taddr s) (tsock s) n (source_closed s) (closed s) (trace s).
Definition set_source_closed (b : bool) (s : t) : t :=
  mk (taddr s) (tsock s) (nworkers s) b (closed s) (trace s).
Definition set_closed (b : bool) (s : t) : t :=
  mk (taddr s) (tsock s) (nworkers s) (source_closed s) b (trace s).
Definition set_trace (l : list event) (s : t) : t :=
  mk (taddr s) (tsock s) (nworkers s) (source_closed s) (closed s) l.

#[global] Instance traced : Traced t := {| trace_of := trace; with_trace := set_trace |}.

Definition self_tsock : sockref t := mkSockref t Tsock tsock set_tsock.

(** [__init__]: [requests] is what the workers and the source will send. *)
Definition init (taddr : string) (requests : list pyobj) : t :=
  mk taddr (rep_socket requests) 0 false false [].

Definition fuel (s : t) : nat := S (List.length (rx (tsock s))).

(** The condition of the [while] of [next]. *)
Definition running (s : t) : bool :=
  negb (source_closed s) || (0 <? nworkers s).

Definition next_body : M t (ctl pyobj) :=
  result <- recv_pyobj self_tsock ;;
  send_pyobj self_tsock PyNone ;;
  if isinstance result WorkerJoinMessage then
    modify (fun s => set_nworkers (nworkers s + 1) s) ;;
    ret Continue
  else if isinstance result WorkerExitedMessage then
    modify (fun s => set_nworkers (nworkers s - 1) s) ;;
    ret Continue
  else if isinstance result SourceExitedMessage then
    modify (set_source_closed true) ;;
    ret Continue
  else
    ret (Return result).

(** Return next result from worker. *)
Definition next : M t pyobj :=
  fun s =>
    (r <- while (fuel s) running next_body ;;
     match r with
     | Some result => ret result
     | None => raise StopIteration
     end) s.

(** Close the sockets. *)
Definition close : M t unit :=
  fun s =>
    if closed s then (Ok tt, s)
    else
      (modify (set_closed true) ;;
       sleep CLOSESYNC ;;
       sock_close self_tsock) s.

(** [__iter__], [__enter__], [__exit__] and [__del__]: the sink is its own
    iterator and context manager; leaving the block, and finalisation, call
    [close()]. *)
Definition __iter__ : M t unit := ret tt.
Definition __enter__ : M t unit := ret tt.
Definition __exit__ (exc : option exn) : M t bool := close ;; ret false.
Definition __del__ : M t unit := close.

End Sink.

(** ** class Worker *)

Module Worker.

(** Worker(saddr, taddr) -- job worker socket. *)
Record t : Type := mk {
  saddr : string;
  taddr : string;
  ssock : socket;
  tsock : socket;
  closed : bool;
  trace : list event
}.

Definition set_ssock (k : socket) (w : t) : t :=
  mk (saddr w) (taddr w) k (tsock w) (closed w) (trace w).
Definition set_tsock (k : socket) (w : t) : t :=
  mk (saddr w) (taddr w) (ssock w) k (closed w) (trace w).
Definition set_closed (b : bool) (w : t) : t :=
  mk (saddr w) (taddr w) (ssock w) (tsock w) b (trace w).
Definition set_trace (l : list event) (w : t) : t :=
  mk (saddr w) (taddr w) (ssock w) (tsock w) (closed w) l.

#[global] Instance traced : Traced t := {| trace_of := trace; with_trace := set_trace |}.

Definition self_ssock : sockref t := mkSockref t Ssock ssock set_ssock.
Definition self_tsock : sockref t := mkSockref t Tsock tsock set_tsock.

(** The attribute assignments that open [__init__]; [from_source] and
    [from_sink] are the replies the two peers will give. *)
Definition alloc (saddr taddr : string) (from_source from_sink : list pyobj) : t :=
  mk saddr taddr (req_socket from_source) (req_socket from_sink) false [].

(** The join handshake that ends [__init__]. *)
Definition join : M t unit :=
  (* Send join message to source *)
  send_pyobj self_ssock (PyInst WorkerJoinMessage) ;;
  rep <- recv_pyobj self_ssock ;;
  when (negb (is_None rep))
    (raise (Error "Invalid response"%string rep)) ;;
  (* Sent join message to sink *)
  send_pyobj self_tsock (PyInst WorkerJoinMessage) ;;
  rep <- recv_pyobj self_tsock ;;
  when (negb (is_None rep))
    (raise (Error "Invalid response"%string rep)).

(** [__init__] run on the object under construction. *)
Definition init (saddr taddr : string) (from_source from_sink : list pyobj)
  : outcome unit * t :=
  join (alloc saddr taddr from_source from_sink).

(** The expression [Worker(saddr, taddr)]: the caller gets the object only
    when [__init__] returns. *)
Definition new (saddr taddr : string) (from_source from_sink : list pyobj)
  : outcome t :=
  match init saddr taddr from_source from_sink with
  | (Ok _, w) => Ok w
  | (Raise e, _) => Raise e
  | (Blocked, _) => Blocked
  | (OutOfFuel, _) => OutOfFuel
  end.

(** Return next task from source. *)
Definition next : M t pyobj :=
  send_pyobj self_ssock PyNone ;;
  task <- recv_pyobj self_ssock ;;
  if isinstance task NoMoreJobsMessage then
    raise StopIteration
  else
    ret task.

(** Send result to sink. *)
Definition send (result : pyobj) : M t unit :=
  send_pyobj self_tsock result ;;
  rep <- recv_pyobj self_tsock ;;
  when (negb (is_None rep))
    (raise (Error "Invalid response"%string rep)).

(** Inform source of leaving. *)
Definition close : M t unit :=
  fun w =>
    if closed w then (Ok tt, w)
    else
      (modify (set_closed true) ;;
       (* Send exit message to source *)
       send_pyobj self_ssock (PyInst WorkerExitedMessage) ;;
       rep <- recv_pyobj self_ssock ;;
       when (negb (is_None rep))
         (raise (Error "Invalid response"%string rep)) ;;
       (* Send exit message to sink *)
       send_pyobj self_tsock (PyInst WorkerExitedMessage) ;;
       rep <- recv_pyobj self_tsock ;;
       when (negb (is_None rep))
         (raise (Error "Invalid response"%string rep))) w.

(** [__iter__], [__enter__], [__exit__] and [__del__]: the worker is its own
    iterator and context manager; leaving the block, and finalisation, call
    [close()]. *)
Definition __iter__ : M t unit := ret tt.
Definition __enter__ : M t unit := ret tt.
Definition __exit__ (exc : option exn) : M t bool := close ;; ret false.
Definition __del__ : M t unit := close.

End Worker.

(** * pypb.cache: the hash of a function's source

    [fnhash] of [pypb/cache.py].  What [inspect] and the function object
    give is taken as given: the source lines, [__doc__] and [__name__].
    Strings are byte strings, as in the Python 2 the module is written for. *)

Module cache.

(** What [fnhash] reads of a function. *)
Record function : Type := mkFunction {
  getsourcelines : list string;
  __doc__ : option string;
  __name__ : string
}.

(** [c.isspace()] on one byte: space, tab, newline, vertical tab, form feed
    and carriage return. *)
Definition isspace (c : Ascii.ascii) : bool :=
  let n := Ascii.nat_of_ascii c in
  Nat.eqb n 32 || (Nat.leb 9 n && Nat.leb n 13).

Fixpoint lstrip (s : string) : string :=
  match s with
  | String c s' => if isspace c then lstrip s' else s
  | EmptyString => EmptyString
  end.

Definition reverse (s : string) : string :=
  string_of_list_ascii (rev (list_ascii_of_string s)).

Definition rstrip (s : string) : string := reverse (lstrip (reverse s)).

(** [s.strip()] *)
Definition strip (s : string) : string := rstrip (lstrip s).

Fixpoint drop (n : nat) (s : string) : string :=
  match n, s with
  | S n', String _ s' => drop n' s'
  | _, _ => s
  end.

(** [s.replace(old, new, 1)]: the leftmost occurrence of [old], which for an
    empty [old] is the start of [s]. *)
Fixpoint replace_once (old new s : string) : string :=
  if String.prefix old s then String.append new (drop (String.length old) s)
  else match s with
       | String c s' => String c (replace_once old new s')
       | EmptyString => EmptyString
       end.

(** The condition of the list comprehension:
    [l.strip() and l.strip()[0] != "#"]. *)
Definition is_code_line (l : string) : bool :=
  match strip l with
  | EmptyString => false
  | String c _ => negb (Ascii.eqb c (Ascii.ascii_of_nat 35))   (* "#" *)
  end.

(** [(c for c in source if not c.isspace())], joined. *)
Fixpoint remove_whitespace (s : string) : string :=
  match s with
  | String c s' => if isspace c then remove_whitespace s' else String c (remove_whitespace s')
  | EmptyString => EmptyString
  end.

(** Given a function return a hash string version. *)
Definition fnhash (fn : function) : string :=
  (* Get the function source *)
  let source := getsourcelines fn in
  (* Remove any line comments *)
  let source := filter is_code_line source in
  (* Create a single string *)
  let source := String.concat ""%string source in
  (* Replace the docstring with an empty string *)
  let source := match __doc__ fn with
                | Some doc => replace_once doc ""%string source
                | None => source
                end in
  (* Replace the function name with an empty string *)
  let source := replace_once (__name__ fn) ""%string source in
  (* Remove all whitespace *)
  remove_whitespace source.

End cache.

(** * Vocabulary of the statements *)

(** ** Joins and exits *)

(** The two requests that move the worker count. *)
Definition is_join (o : pyobj) : bool := isinstance o WorkerJoinMessage.
Definition is_exit (o : pyobj) : bool := isinstance o WorkerExitedMessage.
Definition join_or_exit (o : pyobj) : bool := is_join o || is_exit o.

(** How many messages of a sequence satisfy [p]. *)
Definition count (p : pyobj -> bool) (l : list pyobj) : Z :=
  Z.of_nat (List.length (filter p l)).

(** N and M of a sequence of messages. *)
Definition joins (l : list pyobj) : Z := count is_join l.
Definition exits (l : list pyobj) : Z := count is_exit l.

(** ** Source.send and Sink.next among joins and exits *)

(** What the source does with a join or exit request [r]. *)
Definition acked (r : pyobj) : list event := [Recv Ssock r; Send Ssock PyNone].

(** The source [s] after the join and exit requests [ctrl] were serviced,
    with [rest] still pending on its reply socket. *)
Definition Source_after (s : Source.t) (ctrl rest : list pyobj) : Source.t :=
  Source.mk (Source.saddr s) (Source.taddr s) (mkSocket rest false) (Source.tsock s)
    (Source.nworkers s + joins ctrl - exits ctrl) (Source.closed s)
    (Source.trace s ++ flat_map acked ctrl).

(** The longest prefix of elements satisfying [p], and what follows it. *)
Fixpoint take_while (p : pyobj -> bool) (l : list pyobj) : list pyobj :=
  match l with
  | x :: l' => if p x then x :: take_while p l' else []
  | [] => []
  end.

Fixpoint drop_while (p : pyobj -> bool) (l : list pyobj) : list pyobj :=
  match l with
  | x :: l' => if p x then drop_while p l' else l
  | [] => []
  end.

(** What the sink does with a join or exit message [r]. *)
Definition sink_acked (r : pyobj) : list event := [Recv Tsock r; Send Tsock PyNone].

(** The sink [k] after the join and exit messages [ctrl] were received,
    with [rest] still pending on its reply socket. *)
Definition Sink_after (k : Sink.t) (ctrl rest : list pyobj) : Sink.t :=
  Sink.mk (Sink.taddr k) (mkSocket rest false)
    (Sink.nworkers k + joins ctrl - exits ctrl) (Sink.source_closed k) (Sink.closed k)
    (Sink.trace k ++ flat_map sink_acked ctrl).

(** The state in which [msgs] is what the peers deliver next. *)
Definition Source_deliver (msgs : list pyobj) (s : Source.t) : Source.t :=
  Source.set_ssock (mkSocket msgs false) s.
Definition Sink_deliver (msgs : list pyobj) (k : Sink.t) : Sink.t :=
  Sink.set_tsock (mkSocket msgs false) k.

(** The count an endpoint tracks once the messages [msgs], and no other,
    were delivered to its loop. *)
Definition Source_count_after (task : pyobj) (s : Source.t) (msgs : list pyobj) : Z :=
  Source.nworkers (snd (Source.send task (Source_deliver msgs s))).
Definition Sink_count_after (k : Sink.t) (msgs : list pyobj) : Z :=
  Sink.nworkers (snd (Sink.next (Sink_deliver msgs k))).

(** ** Results *)

(** The messages [Sink.next] keeps for itself. *)
Definition sink_control (o : pyobj) : bool :=
  isinstance o WorkerJoinMessage || isinstance o WorkerExitedMessage
  || isinstance o SourceExitedMessage.

(** The condition under which the [while] of [Sink.next] is left. *)
Definition exhausted (k : Sink.t) : Prop :=
  Sink.source_closed k = true /\ Sink.nworkers k <= 0.

(** The relation between the sink before a call of [next] and the outcome:
    a prefix [consumed] of the pending messages was received and each was
    acknowledged; all of them were control messages but the last of a call
    that returns, which is the result returned. *)
Definition Sink_next_post (k : Sink.t) (r : outcome pyobj * Sink.t) : Prop :=
  let (o, k') := r in
  exists consumed : list pyobj,
    rx (Sink.tsock k) = consumed ++ rx (Sink.tsock k') /\
    Sink.trace k' = Sink.trace k ++ flat_map sink_acked consumed /\
    match o with
    | Ok result =>
        exists ctrl, consumed = ctrl ++ [result] /\
                     forallb sink_control ctrl = true /\ sink_control result = false
    | Raise StopIteration => forallb sink_control consumed = true /\ exhausted k'
    | Raise ZMQError => consumed = [] /\ sock_closed (Sink.tsock k) = true
    | Raise (Error _ _) => False
    | Blocked =>
        forallb sink_control consumed = true /\ rx (Sink.tsock k') = [] /\
        Sink.running k' = true
    | OutOfFuel => False
    end.

(** [list(sink)], or [for result in sink]: Python calls [next] until it
    raises [StopIteration]. *)
Fixpoint Sink_collect (fuel : nat) : M Sink.t (list pyobj) :=
  fun k =>
    match fuel with
    | O => (OutOfFuel, k)
    | S fuel' =>
        match Sink.next k with
        | (Ok result, k1) => (l <- Sink_collect fuel' ;; ret (result :: l)) k1
        | (Raise StopIteration, k1) => (Ok [], k1)
        | (Raise e, k1) => (Raise e, k1)
        | (Blocked, k1) => (Blocked, k1)
        | (OutOfFuel, k1) => (OutOfFuel, k1)
        end
    end.

(** Every call of [next] that returns took a message, so the pending
    messages bound the number of calls. *)
Definition Sink_list : M Sink.t (list pyobj) :=
  fun k => Sink_collect (S (List.length (rx (Sink.tsock k)))) k.

(** Everything else is handed to the consumer. *)
Definition is_result (o : pyobj) : bool := negb (sink_control o).

(** What a run of [Sink_collect] leaves, for any fuel above the number of
    pending messages. *)
Definition Sink_collect_post (k : Sink.t) (r : outcome (list pyobj) * Sink.t) : Prop :=
  let (o, k') := r in
  exists consumed : list pyobj,
    rx (Sink.tsock k) = consumed ++ rx (Sink.tsock k') /\
    match o with
    | Ok l => l = filter is_result consumed /\ exhausted k'
    | Raise StopIteration => False
    | Raise (Error _ _) => False
    | Raise ZMQError => True
    | Blocked => rx (Sink.tsock k') = []
    | OutOfFuel => False
    end.

(** ** Source.close *)

(** The requests the loop of [Source.close] knows. *)
Definition handled (r : pyobj) : bool := is_None r || join_or_exit r.

(** What a closing source answers to a request it knows. *)
Definition closing_reply (r : pyobj) : pyobj :=
  if is_None r then PyInst NoMoreJobsMessage else PyNone.

(** What a closing source does with such a request. *)
Definition drained_request (r : pyobj) : list event :=
  [Recv Ssock r; Send Ssock (closing_reply r)].

(** The source [s] after its drain loop answered [served], with [rest]
    pending; [extra] is what it did after the last answer. *)
Definition Source_drained (s : Source.t) (served rest : list pyobj) (extra : list event)
  : Source.t :=
  Source.mk (Source.saddr s) (Source.taddr s)
    (mkSocket rest (sock_closed (Source.ssock s))) (Source.tsock s)
    (Source.nworkers s + joins served - exits served) (Source.closed s)
    (Source.trace s ++ flat_map drained_request served ++ extra).

(** Counting from [n], the count is positive before each request of [served]. *)
Fixpoint positive_before (n : Z) (served : list pyobj) : bool :=
  match served with
  | [] => true
  | c :: served' => (0 <? n) && positive_before (n + joins [c] - exits [c]) served'
  end.

(** The relation between the source before its drain loop and the outcome of
    the loop: the requests [served] were answered while the count was
    positive; the loop ends on a count that is not positive, waits when
    nothing is pending, or raises on a request it does not know. *)
Definition Source_drain_post (s : Source.t) (r : outcome (option unit) * Source.t) : Prop :=
  let (o, s') := r in
  exists served : list pyobj,
    forallb handled served = true /\
    positive_before (Source.nworkers s) served = true /\
    match o with
    | Ok _ =>
        exists rest, rx (Source.ssock s) = served ++ rest /\
                     s' = Source_drained s served rest [] /\
                     Source.nworkers s' <= 0
    | Blocked =>
        rx (Source.ssock s) = served /\ s' = Source_drained s served [] [] /\
        0 < Source.nworkers s' /\ sock_closed (Source.ssock s) = false
    | Raise (Error msg bad) =>
        exists rest, rx (Source.ssock s) = served ++ bad :: rest /\
                     s' = Source_drained s served rest [Recv Ssock bad] /\
                     handled bad = false /\ msg = "Invalid request"%string /\
                     sock_closed (Source.ssock s) = false
    | Raise ZMQError =>
        served = [] /\ s' = s /\ sock_closed (Source.ssock s) = true
    | Raise StopIteration => False
    | OutOfFuel => False
    end.


(** [Source.close] from its loop on. *)
Definition Source_finish : M Source.t unit :=
  _ <- Source.drain ;; Source.inform_sink.

(** ** Messages on the wire, and states by what was received *)

Definition sockname_eqb (a b : sockname) : bool :=
  match a, b with
  | Ssock, Ssock | Tsock, Tsock => true
  | _, _ => false
  end.

(** The messages sent on socket [k] in a trace, in order. *)
Fixpoint sent_on (k : sockname) (tr : list event) : list pyobj :=
  match tr with
  | Send k' o :: tr' => if sockname_eqb k k' then o :: sent_on k tr' else sent_on k tr'
  | _ :: tr' => sent_on k tr'
  | [] => []
  end.

(** What a call added to the trace [old], given the trace [new] it left. *)
Definition new_events (old new : list event) : list event :=
  skipn (List.length old) new.

(** The worker [w] with the replies the source, the sink, or both will give. *)
Definition Worker_deliver_source (from_source : list pyobj) (w : Worker.t) : Worker.t :=
  Worker.set_ssock (mkSocket from_source false) w.
Definition Worker_deliver_sink (from_sink : list pyobj) (w : Worker.t) : Worker.t :=
  Worker.set_tsock (mkSocket from_sink false) w.
Definition Worker_deliver (from_source from_sink : list pyobj) (w : Worker.t) : Worker.t :=
  Worker_deliver_sink from_sink (Worker_deliver_source from_source w).

Definition is_source_exited (o : pyobj) : bool := isinstance o SourceExitedMessage.

(** The sink [k] after it received and acknowledged [consumed], with [rest]
    still pending. *)
Definition Sink_received (k : Sink.t) (consumed rest : list pyobj) : Sink.t :=
  Sink.mk (Sink.taddr k) (mkSocket rest (sock_closed (Sink.tsock k)))
    (Sink.nworkers k + joins consumed - exits consumed)
    (Sink.source_closed k || existsb is_source_exited consumed) (Sink.closed k)
    (Sink.trace k ++ flat_map sink_acked consumed).

(** * Properties *)

(** ** One iteration at a time

    The fuel of each loop is the number of pending messages plus one, and an
    iteration takes exactly one message: unfolding an iteration leaves the
    same method on the next state. *)

Arguments is_None : simpl never.
Arguments isinstance : simpl never.
Arguments Source.send : simpl never.
Arguments Source.drain : simpl never.
Arguments Sink.next : simpl never.

Lemma while_S {St A} (n : nat) (cond : St -> bool) (body : M St (ctl A)) (s : St) :
  while (S n) cond body s =
  if cond s then
    match body s with
    | (Ok Continue, s') => while n cond body s'
    | (Ok (Return a), s') => (Ok (Some a), s')
    | (Raise e, s') => (Raise e, s')
    | (Blocked, s') => (Blocked, s')
    | (OutOfFuel, s') => (OutOfFuel, s')
    end
  else (Ok None, s).
Proof. reflexivity. Qed.

Ltac run_body :=
  unfold when, sleep;
  unfold bind, ret, raise, modify, recv_pyobj, send_pyobj, sock_close, log;
  simpl.

Lemma Source_send_unfold (task : pyobj) (s : Source.t) :
  Source.send task s =
  if sock_closed (Source.ssock s) then (Raise ZMQError, s)
  else match rx (Source.ssock s) with
       | [] => (Blocked, s)
       | req :: q =>
           let s1 := log (Recv Ssock req) (Source.set_ssock (mkSocket q false) s) in
           if is_None req then (Ok tt, log (Send Ssock task) s1)
           else if isinstance req WorkerJoinMessage then
             Source.send task
               (Source.set_nworkers (Source.nworkers s + 1) (log (Send Ssock PyNone) s1))
           else if isinstance req WorkerExitedMessage then
             Source.send task
               (Source.set_nworkers (Source.nworkers s - 1) (log (Send Ssock PyNone) s1))
           else (Raise (Error "Invalid request"%string req), s1)
       end.
Proof.
  destruct s as [sa ta [q c] tk n cl tr].
  unfold Source.send, Source.fuel, bind at 1.
  simpl List.length. rewrite while_S.
  unfold Source.send_body at 1. run_body.
  destruct c; [reflexivity|].
  destruct q as [|req q]; [reflexivity|].
  destruct (is_None req); [reflexivity|].
  destruct (isinstance req WorkerJoinMessage); [reflexivity|].
  destruct (isinstance req WorkerExitedMessage); reflexivity.
Qed.

Lemma Source_drain_unfold (s : Source.t) :
  Source.drain s =
  if 0 <? Source.nworkers s then
    if sock_closed (Source.ssock s) then (Raise ZMQError, s)
    else match rx (Source.ssock s) with
         | [] => (Blocked, s)
         | req :: q =>
             let s1 := log (Recv Ssock req) (Source.set_ssock (mkSocket q false) s) in
             if is_None req then
               Source.drain (log (Send Ssock (PyInst NoMoreJobsMessage)) s1)
             else if isinstance req WorkerJoinMessage then
               Source.drain
                 (Source.set_nworkers (Source.nworkers s + 1) (log (Send Ssock PyNone) s1))
             else if isinstance req WorkerExitedMessage then
               Source.drain
                 (Source.set_nworkers (Source.nworkers s - 1) (log (Send Ssock PyNone) s1))
             else (Raise (Error "Invalid request"%string req), s1)
         end
  else (Ok None, s).
Proof.
  destruct s as [sa ta [q c] tk n cl tr].
  unfold Source.drain at 1, Source.fuel.
  simpl List.length. rewrite while_S.
  unfold Source.close_body at 1. run_body.
  destruct (0 <? n); [|reflexivity].
  destruct c; [reflexivity|].
  destruct q as [|req q]; [reflexivity|].
  destruct (is_None req); [reflexivity|].
  destruct (isinstance req WorkerJoinMessage); [reflexivity|].
  destruct (isinstance req WorkerExitedMessage); reflexivity.
Qed.

Lemma Sink_next_unfold (k : Sink.t) :
  Sink.next k =
  if Sink.running k then
    if sock_closed (Sink.tsock k) then (Raise ZMQError, k)
    else match rx (Sink.tsock k) with
         | [] => (Blocked, k)
         | result :: q =>
             let k1 := log (Send Tsock PyNone)
                         (log (Recv Tsock result) (Sink.set_tsock (mkSocket q false) k)) in
             if isinstance result WorkerJoinMessage then
               Sink.next (Sink.set_nworkers (Sink.nworkers k + 1) k1)
             else if isinstance result WorkerExitedMessage then
               Sink.next (Sink.set_nworkers (Sink.nworkers k - 1) k1)
             else if isinstance result SourceExitedMessage then
               Sink.next (Sink.set_source_closed true k1)
             else (Ok result, k1)
         end
  else (Raise StopIteration, k).
Proof.
  destruct k as [ta [q c] n sc cl tr].
  unfold Sink.next, Sink.fuel, bind at 1.
  simpl List.length. rewrite while_S.
  unfold Sink.next_body at 1. run_body.
  destruct (Sink.running _); [|reflexivity].
  destruct c; [reflexivity|].
  destruct q as [|result q]; [reflexivity|].
  destruct (isinstance result WorkerJoinMessage); [reflexivity|].
  destruct (isinstance result WorkerExitedMessage); [reflexivity|].
  destruct (isinstance result SourceExitedMessage); reflexivity.
Qed.

(** ** Counting joins and exits *)

Lemma count_cons (p : pyobj -> bool) (x : pyobj) (l : list pyobj) :
  count p (x :: l) = (if p x then 1 else 0) + count p l.
Proof.
  unfold count; simpl. destruct (p x); simpl List.length; lia.
Qed.

Arguments count : simpl never.

Lemma isinstance_not_None (o : pyobj) (c : cls) :
  isinstance o c = true -> is_None o = false.
Proof. destruct o; unfold isinstance, is_None; intros H; try reflexivity; discriminate H. Qed.

Lemma join_not_exit (o : pyobj) : is_join o = true -> is_exit o = false.
Proof.
  unfold is_join, is_exit, isinstance.
  destruct o as [| | | | | |c]; simpl; intros H; try discriminate H.
  destruct c; cbv in H |- *; congruence.
Qed.

Lemma join_or_exit_cases (o : pyobj) :
  join_or_exit o = true ->
  is_None o = false /\
  ((is_join o = true /\ is_exit o = false) \/ (is_join o = false /\ is_exit o = true)).
Proof.
  unfold join_or_exit; intros H.
  destruct (is_join o) eqn:J.
  - split; [exact (isinstance_not_None _ _ J)|left; split; [reflexivity|exact (join_not_exit _ J)]].
  - simpl in H. split; [exact (isinstance_not_None _ _ H)|right; split; [reflexivity|exact H]].
Qed.

(** ** Source.send *)

Lemma Source_send_skip (task : pyobj) (ctrl rest : list pyobj) :
  forall s : Source.t,
    sock_closed (Source.ssock s) = false ->
    rx (Source.ssock s) = ctrl ++ rest ->
    forallb join_or_exit ctrl = true ->
    Source.send task s = Source.send task (Source_after s ctrl rest).
Proof.
  induction ctrl as [|c ctrl IH]; intros s Hopen Hrx Hall.
  - destruct s as [sa ta [q cl] tk n c tr]; simpl in *; subst.
    unfold Source_after, joins, exits, count; simpl.
    rewrite app_nil_r, Z.add_0_r, Z.sub_0_r. reflexivity.
  - simpl in Hall. apply andb_prop in Hall as [Hc Hall].
    destruct (join_or_exit_cases c Hc) as [HN [[J E]|[J E]]];
      rewrite Source_send_unfold, Hopen, Hrx; simpl;
      pose proof J as J'; pose proof E as E'; unfold is_join in J'; unfold is_exit in E';
      rewrite HN, J', ?E';
      (rewrite IH; [|reflexivity|reflexivity|exact Hall]);
      f_equal; unfold Source_after, joins, exits; simpl;
      rewrite !count_cons, J, E, <- !app_assoc; simpl app; f_equal; lia.
Qed.

Lemma take_drop_while (p : pyobj -> bool) (l : list pyobj) :
  l = take_while p l ++ drop_while p l.
Proof.
  induction l as [|x l IH]; simpl; [reflexivity|].
  destruct (p x); simpl; [f_equal; exact IH|reflexivity].
Qed.

Lemma take_while_all (p : pyobj -> bool) (l : list pyobj) :
  forallb p (take_while p l) = true.
Proof.
  induction l as [|x l IH]; simpl; [reflexivity|].
  destruct (p x) eqn:E; simpl; [rewrite E; exact IH|reflexivity].
Qed.

Lemma drop_while_head (p : pyobj -> bool) (l : list pyobj) (x : pyobj) (q : list pyobj) :
  drop_while p l = x :: q -> p x = false.
Proof.
  induction l as [|y l IH]; simpl; [discriminate|].
  destruct (p y) eqn:E; [exact IH|].
  intros H; injection H as -> _; exact E.
Qed.

(** C6. [Source.send(task)] acknowledges the join and exit requests that
    come first ([ctrl]), counting the joins up and the exits down; it blocks
    when nothing follows them, answers with the task and returns when a
    plain ([None]) request follows, and raises the protocol error on any
    other request, which is left unanswered. *)
Theorem Source_send_serves_until_plain_request :
  forall (task : pyobj) (s : Source.t),
    sock_closed (Source.ssock s) = false ->
    let ctrl := take_while join_or_exit (rx (Source.ssock s)) in
    Source.send task s =
    match drop_while join_or_exit (rx (Source.ssock s)) with
    | [] => (Blocked, Source_after s ctrl [])
    | req :: rest =>
        if is_None req then
          (Ok tt,
           Source.mk (Source.saddr s) (Source.taddr s) (mkSocket rest false) (Source.tsock s)
             (Source.nworkers s + joins ctrl - exits ctrl) (Source.closed s)
             (Source.trace s ++ flat_map acked ctrl ++ [Recv Ssock req; Send Ssock task]))
        else
          (Raise (Error "Invalid request"%string req),
           Source.mk (Source.saddr s) (Source.taddr s) (mkSocket rest false) (Source.tsock s)
             (Source.nworkers s + joins ctrl - exits ctrl) (Source.closed s)
             (Source.trace s ++ flat_map acked ctrl ++ [Recv Ssock req]))
    end.
Proof.
  intros task s Hopen ctrl.
  pose proof (take_drop_while join_or_exit (rx (Source.ssock s))) as Hsplit.
  fold ctrl in Hsplit.
  rewrite (Source_send_skip task ctrl _ s Hopen Hsplit (take_while_all _ _)).
  rewrite Source_send_unfold. simpl.
  destruct (drop_while join_or_exit (rx (Source.ssock s))) as [|req rest] eqn:D.
  - reflexivity.
  - apply drop_while_head in D. unfold join_or_exit, is_join, is_exit in D.
    apply orb_false_elim in D as [J E]. rewrite J, E.
    destruct (is_None req); rewrite <- !app_assoc; reflexivity.
Qed.

(** Three requests are enough to see every branch: a join, an exit and a
    plain request on a fresh source. *)
Lemma Source_send_serves_until_plain_request_witness :
  Source.send (PyStr "job-1"%string)
    (Source.init "tcp://a"%string "tcp://b"%string
       [PyInst WorkerJoinMessage; PyInst WorkerJoinMessage; PyInst WorkerExitedMessage; PyNone; PyNone] []) =
  (Ok tt,
   Source.mk "tcp://a"%string "tcp://b"%string (mkSocket [PyNone] false) (mkSocket [] false) 1 false
     [Recv Ssock (PyInst WorkerJoinMessage); Send Ssock PyNone;
      Recv Ssock (PyInst WorkerJoinMessage); Send Ssock PyNone;
      Recv Ssock (PyInst WorkerExitedMessage); Send Ssock PyNone;
      Recv Ssock PyNone; Send Ssock (PyStr "job-1"%string)]).
Proof.
  exact (Source_send_serves_until_plain_request (PyStr "job-1"%string)
           (Source.init "tcp://a"%string "tcp://b"%string
              [PyInst WorkerJoinMessage; PyInst WorkerJoinMessage;
               PyInst WorkerExitedMessage; PyNone; PyNone] [])
           eq_refl).
Defined.

(** ** Sink: join and exit messages *)

Lemma Sink_next_skip (ctrl rest : list pyobj) :
  forall k : Sink.t,
    Sink.source_closed k = false ->
    sock_closed (Sink.tsock k) = false ->
    rx (Sink.tsock k) = ctrl ++ rest ->
    forallb join_or_exit ctrl = true ->
    Sink.next k = Sink.next (Sink_after k ctrl rest).
Proof.
  induction ctrl as [|c ctrl IH]; intros k Hsc Hopen Hrx Hall.
  - destruct k as [ta [q cl] n sc c tr]; simpl in *; subst.
    unfold Sink_after, joins, exits, count; simpl.
    rewrite app_nil_r, Z.add_0_r, Z.sub_0_r. reflexivity.
  - simpl in Hall. apply andb_prop in Hall as [Hc Hall].
    rewrite Sink_next_unfold. unfold Sink.running. rewrite Hsc, Hopen, Hrx. simpl.
    destruct (join_or_exit_cases c Hc) as [HN [[J E]|[J E]]];
      pose proof J as J'; pose proof E as E'; unfold is_join in J'; unfold is_exit in E';
      rewrite J', ?E';
      (rewrite IH; [|exact Hsc|reflexivity|reflexivity|exact Hall]);
      f_equal; unfold Sink_after, joins, exits; simpl;
      rewrite !count_cons, J, E, <- !app_assoc; simpl app; f_equal; lia.
Qed.

Lemma Source_send_only_control (task : pyobj) (s : Source.t) (msgs : list pyobj) :
  forallb join_or_exit msgs = true ->
  Source.send task (Source_deliver msgs s) =
  (Blocked, Source_after (Source_deliver msgs s) msgs []).
Proof.
  intros Hall.
  rewrite (Source_send_skip task msgs [] (Source_deliver msgs s));
    [|reflexivity|simpl; rewrite app_nil_r; reflexivity|exact Hall].
  rewrite Source_send_unfold. reflexivity.
Qed.

Lemma Sink_next_only_control (k : Sink.t) (msgs : list pyobj) :
  Sink.source_closed k = false ->
  forallb join_or_exit msgs = true ->
  Sink.next (Sink_deliver msgs k) =
  (Blocked, Sink_after (Sink_deliver msgs k) msgs []).
Proof.
  intros Hsc Hall.
  rewrite (Sink_next_skip msgs [] (Sink_deliver msgs k));
    [|exact Hsc|reflexivity|simpl; rewrite app_nil_r; reflexivity|exact Hall].
  rewrite Sink_next_unfold. unfold Sink.running. simpl. rewrite Hsc. reflexivity.
Qed.

Lemma forallb_prefix (p : pyobj -> bool) (l1 l2 : list pyobj) :
  forallb p (l1 ++ l2) = true -> forallb p l1 = true.
Proof. rewrite forallb_app. intros H; apply andb_prop in H; tauto. Qed.

(** C2, amended.  For a sequence of joins and exits delivered to
    [Source.send] (to [Sink.next], before the source has exited), the count
    moves from its value before to that value plus N - M, whatever N and M
    are; the same holds after every prefix, the run over the whole sequence
    being the run over a prefix carried on with the rest.  The count stays
    non-negative at every point when, starting non-negative, no prefix holds
    more exits than joins. *)
Theorem worker_count_adds_joins_minus_exits :
  forall (task : pyobj) (s : Source.t) (k : Sink.t) (msgs : list pyobj),
    forallb join_or_exit msgs = true ->
    Sink.source_closed k = false ->
    Source_count_after task s msgs = Source.nworkers s + joins msgs - exits msgs /\
    Sink_count_after k msgs = Sink.nworkers k + joins msgs - exits msgs /\
    (forall p q, msgs = p ++ q ->
       Source.send task (Source_deliver msgs s) =
       Source.send task (Source_deliver q (snd (Source.send task (Source_deliver p s)))) /\
       Sink.next (Sink_deliver msgs k) =
       Sink.next (Sink_deliver q (snd (Sink.next (Sink_deliver p k))))) /\
    ((forall p q, msgs = p ++ q -> exits p <= joins p) ->
     0 <= Source.nworkers s -> 0 <= Sink.nworkers k ->
     forall p q, msgs = p ++ q ->
       0 <= Source_count_after task s p /\ 0 <= Sink_count_after k p).
Proof.
  intros task s k msgs Hall Hsc.
  assert (Hsrc : forall l, forallb join_or_exit l = true ->
            Source_count_after task s l = Source.nworkers s + joins l - exits l).
  { intros l Hl. unfold Source_count_after.
    rewrite (Source_send_only_control task s l Hl). reflexivity. }
  assert (Hsnk : forall l, forallb join_or_exit l = true ->
            Sink_count_after k l = Sink.nworkers k + joins l - exits l).
  { intros l Hl. unfold Sink_count_after.
    rewrite (Sink_next_only_control k l Hsc Hl). reflexivity. }
  split; [exact (Hsrc msgs Hall)|].
  split; [exact (Hsnk msgs Hall)|].
  split.
  - intros p q ->. pose proof (forallb_prefix _ _ _ Hall) as Hp. split.
    + rewrite (Source_send_only_control task s p Hp). simpl snd.
      rewrite (Source_send_skip task p q (Source_deliver (p ++ q) s));
        [|reflexivity|reflexivity|exact Hp].
      reflexivity.
    + rewrite (Sink_next_only_control k p Hsc Hp). simpl snd.
      rewrite (Sink_next_skip p q (Sink_deliver (p ++ q) k));
        [|exact Hsc|reflexivity|reflexivity|exact Hp].
      reflexivity.
  - intros Hbal Hs Hk p q E. pose proof (Hbal p q E) as Hle. subst msgs.
    pose proof (forallb_prefix _ _ _ Hall) as Hp.
    rewrite (Hsrc p Hp), (Hsnk p Hp). lia.
Qed.

(** Two workers come and one goes: the counts of a fresh source and of a
    fresh sink end at 1. *)
Lemma worker_count_adds_joins_minus_exits_witness :
  Source_count_after (PyStr "job"%string) (Source.init "tcp://a"%string "tcp://b"%string [] [])
    [PyInst WorkerJoinMessage; PyInst WorkerExitedMessage; PyInst WorkerJoinMessage] = 0 + 2 - 1 /\
  Sink_count_after (Sink.init "tcp://b"%string [])
    [PyInst WorkerJoinMessage; PyInst WorkerExitedMessage; PyInst WorkerJoinMessage] = 0 + 2 - 1.
Proof.
  pose proof (worker_count_adds_joins_minus_exits (PyStr "job"%string)
                (Source.init "tcp://a"%string "tcp://b"%string [] [])
                (Sink.init "tcp://b"%string [])
                [PyInst WorkerJoinMessage; PyInst WorkerExitedMessage; PyInst WorkerJoinMessage]
                eq_refl eq_refl) as [H1 [H2 _]].
  split; [exact H1|exact H2].
Defined.

(** C2 as stated fails: one exit followed by one join has N = 1 >= M = 1,
    and after its first message both counts are -1. *)
Lemma worker_count_negative_after_early_exit :
  let msgs := [PyInst WorkerExitedMessage; PyInst WorkerJoinMessage] in
  forallb join_or_exit msgs = true /\
  exits msgs <= joins msgs /\
  Source_count_after (PyStr "job"%string)
    (Source.init "tcp://a"%string "tcp://b"%string [] []) (firstn 1 msgs) = -1 /\
  Sink_count_after (Sink.init "tcp://b"%string []) (firstn 1 msgs) = -1.
Proof.
  cbv zeta. split; [reflexivity|]. split; [vm_compute; discriminate|].
  split; reflexivity.
Qed.

(** ** Sink.next: what a call consumes *)

Lemma running_false_iff (k : Sink.t) : Sink.running k = false <-> exhausted k.
Proof.
  unfold Sink.running, exhausted.
  destruct (Sink.source_closed k); simpl; rewrite ?Z.ltb_ge; split;
    try tauto; try discriminate; intros [H _]; discriminate H.
Qed.

Lemma Sink_next_post_step (k k2 : Sink.t) (c : pyobj) (r : outcome pyobj * Sink.t) :
  sink_control c = true ->
  rx (Sink.tsock k) = c :: rx (Sink.tsock k2) ->
  sock_closed (Sink.tsock k2) = false ->
  Sink.trace k2 = Sink.trace k ++ sink_acked c ->
  Sink_next_post k2 r -> Sink_next_post k r.
Proof.
  intros Hc Hrx Hopen Htr. destruct r as [o k']. simpl.
  intros [consumed [H1 [H2 H3]]]. exists (c :: consumed).
  split; [rewrite Hrx, H1; reflexivity|].
  split; [rewrite H2, Htr, <- app_assoc; reflexivity|].
  destruct o as [result|[msg o| |]| |]; simpl; rewrite ?Hc; simpl; try exact H3.
  - destruct H3 as [ctrl [-> [Hall Hres]]]. exists (c :: ctrl).
    simpl. rewrite Hc. auto.
  - destruct H3 as [_ H3]. rewrite Hopen in H3. discriminate H3.
Qed.

Lemma Sink_next_consumes (q : list pyobj) :
  forall k : Sink.t, rx (Sink.tsock k) = q -> Sink_next_post k (Sink.next k).
Proof.
  induction q as [|result q IH]; intros k Hrx; rewrite Sink_next_unfold;
    destruct (Sink.running k) eqn:R;
    try (exists []; simpl; rewrite app_nil_r; repeat split; auto;
         apply running_false_iff; exact R);
    destruct (sock_closed (Sink.tsock k)) eqn:Hopen;
    try (exists []; simpl; rewrite app_nil_r; repeat split; auto);
    rewrite Hrx.
  - exists []. simpl. rewrite app_nil_r. repeat split; auto.
  - cbv zeta. unfold log. simpl.
    destruct (isinstance result WorkerJoinMessage) eqn:J;
      [|destruct (isinstance result WorkerExitedMessage) eqn:E;
        [|destruct (isinstance result SourceExitedMessage) eqn:X]].
    1-3: (eapply Sink_next_post_step;
          [| | | |apply IH; reflexivity];
          [unfold sink_control; rewrite ?J, ?E, ?X; reflexivity
          |rewrite Hrx; reflexivity|reflexivity
          |simpl; rewrite <- app_assoc; reflexivity]).
    exists [result]. simpl. rewrite <- app_assoc. rewrite Hrx. repeat split.
    exists []. unfold sink_control. rewrite J, E, X. auto.
Qed.

Lemma Sink_next_trace_extends (k : Sink.t) :
  exists tl, Sink.trace (snd (Sink.next k)) = Sink.trace k ++ tl.
Proof.
  pose proof (Sink_next_consumes _ k eq_refl) as H.
  destruct (Sink.next k) as [o k']. destruct H as [consumed [_ [H _]]].
  exists (flat_map sink_acked consumed). exact H.
Qed.

Lemma Sink_next_stop_exhausted (k k' : Sink.t) :
  Sink.next k = (Raise StopIteration, k') -> exhausted k'.
Proof.
  intros H. pose proof (Sink_next_consumes _ k eq_refl) as P.
  rewrite H in P. destruct P as [consumed [_ [_ [_ P]]]]. exact P.
Qed.

Lemma Sink_next_exhausted (k : Sink.t) :
  exhausted k -> Sink.next k = (Raise StopIteration, k).
Proof.
  intros H. apply running_false_iff in H.
  rewrite Sink_next_unfold, H. reflexivity.
Qed.

(** C5 as stated fails: after an exit that no join preceded and the exit of
    the source, the sequence is exhausted with a count of -1, not 0. *)
Lemma Sink_next_stops_with_negative_count :
  let k' := snd (Sink.next (Sink.init "tcp://b"%string
                              [PyInst WorkerExitedMessage; PyInst SourceExitedMessage])) in
  fst (Sink.next (Sink.init "tcp://b"%string
                    [PyInst WorkerExitedMessage; PyInst SourceExitedMessage])) =
  Raise StopIteration /\
  Sink.source_closed k' = true /\ Sink.nworkers k' = -1 /\
  ~ (Sink.source_closed k' = true /\ Sink.nworkers k' = 0).
Proof.
  cbv zeta. split; [reflexivity|]. split; [reflexivity|]. split; [reflexivity|].
  intros [_ H]. vm_compute in H. discriminate H.
Qed.

(** ** Results: from Worker.send to the consumer of the sink *)

Lemma filter_is_result_control (l : list pyobj) :
  forallb sink_control l = true -> filter is_result l = [].
Proof.
  induction l as [|x l IH]; simpl; [reflexivity|].
  intros H. apply andb_prop in H as [Hx Hl]. unfold is_result at 1.
  rewrite Hx. simpl. exact (IH Hl).
Qed.

Lemma Sink_collect_spec (n : nat) :
  forall k : Sink.t,
    (List.length (rx (Sink.tsock k)) < n)%nat ->
    Sink_collect_post k (Sink_collect n k).
Proof.
  induction n as [|n IH]; intros k Hn; [inversion Hn|].
  simpl. pose proof (Sink_next_consumes _ k eq_refl) as P.
  destruct (Sink.next k) as [o k1]. destruct P as [consumed [H1 [_ H3]]].
  destruct o as [result|[msg o| |]| |]; try contradiction.
  - destruct H3 as [ctrl [-> [Hctrl Hres]]].
    assert (Hlen : (List.length (rx (Sink.tsock k1)) < n)%nat).
    { rewrite H1, !length_app in Hn. simpl in Hn. lia. }
    specialize (IH k1 Hlen). unfold bind, ret.
    destruct (Sink_collect n k1) as [o2 k2]. destruct IH as [consumed2 [G1 G2]].
    destruct o2 as [l|[msg o| |]| |]; try contradiction;
      exists ((ctrl ++ [result]) ++ consumed2);
      (split; [rewrite H1, G1, <- !app_assoc; reflexivity|]); auto.
    destruct G2 as [-> G2]. split; [|exact G2].
    rewrite !filter_app, (filter_is_result_control ctrl Hctrl). simpl.
    unfold is_result at 2. rewrite Hres. reflexivity.
  - exists consumed. split; [exact H1|]. destruct H3 as [Hc He].
    split; [|exact He]. symmetry. exact (filter_is_result_control _ Hc).
  - exists consumed. split; [exact H1|exact I].
  - exists consumed. split; [exact H1|]. tauto.
Qed.

Lemma Worker_send_acked (R : pyobj) (w : Worker.t) (q : list pyobj) :
  sock_closed (Worker.tsock w) = false ->
  rx (Worker.tsock w) = PyNone :: q ->
  Worker.send R w =
  (Ok tt,
   Worker.mk (Worker.saddr w) (Worker.taddr w) (Worker.ssock w) (mkSocket q false)
     (Worker.closed w) (Worker.trace w ++ [Send Tsock R; Recv Tsock PyNone])).
Proof.
  destruct w as [sa ta sk [q' c] cl tr]; simpl; intros -> ->.
  unfold Worker.send. run_body. rewrite <- app_assoc. reflexivity.
Qed.

Lemma Sink_next_yields_head (R : pyobj) (k : Sink.t) (q : list pyobj) :
  sink_control R = false ->
  Sink.running k = true ->
  sock_closed (Sink.tsock k) = false ->
  rx (Sink.tsock k) = R :: q ->
  Sink.next k =
  (Ok R,
   Sink.mk (Sink.taddr k) (mkSocket q false) (Sink.nworkers k) (Sink.source_closed k)
     (Sink.closed k) (Sink.trace k ++ [Recv Tsock R; Send Tsock PyNone])).
Proof.
  intros HR Hrun Hopen Hrx. unfold sink_control in HR.
  apply orb_false_elim in HR as [HR X]. apply orb_false_elim in HR as [J E].
  rewrite Sink_next_unfold, Hrun, Hopen, Hrx. cbv zeta. rewrite J, E, X.
  unfold log. simpl. rewrite <- app_assoc. reflexivity.
Qed.

(** C1, amended.  A result [R] that is not an instance of one of the three
    message classes the sink keeps for itself travels as it is: [Worker.send]
    puts [R] itself on the wire, once, and returns on the sink's [None];
    [Sink.next], its loop still running, returns [R] as received, after the
    joins and exits that arrived before it, and takes it off the pending
    messages; and in the list of everything the consumer gets, [R] stands
    once for its one submission, between the results received before it and
    those received after it. *)
Theorem result_is_yielded_once_unchanged :
  forall R : pyobj,
    sink_control R = false ->
    (forall w q,
        sock_closed (Worker.tsock w) = false ->
        rx (Worker.tsock w) = PyNone :: q ->
        Worker.send R w =
        (Ok tt,
         Worker.mk (Worker.saddr w) (Worker.taddr w) (Worker.ssock w) (mkSocket q false)
           (Worker.closed w) (Worker.trace w ++ [Send Tsock R; Recv Tsock PyNone]))) /\
    (forall k q,
        Sink.running k = true ->
        sock_closed (Sink.tsock k) = false ->
        rx (Sink.tsock k) = R :: q ->
        Sink.next k =
        (Ok R,
         Sink.mk (Sink.taddr k) (mkSocket q false) (Sink.nworkers k) (Sink.source_closed k)
           (Sink.closed k) (Sink.trace k ++ [Recv Tsock R; Send Tsock PyNone]))) /\
    (forall k ctrl q,
        Sink.source_closed k = false ->
        sock_closed (Sink.tsock k) = false ->
        forallb join_or_exit ctrl = true ->
        rx (Sink.tsock k) = ctrl ++ R :: q ->
        Sink.next k =
        (Ok R,
         Sink.mk (Sink.taddr k) (mkSocket q false)
           (Sink.nworkers k + joins ctrl - exits ctrl) false (Sink.closed k)
           (Sink.trace k ++ flat_map sink_acked ctrl ++ [Recv Tsock R; Send Tsock PyNone]))) /\
    (forall k pre post l k',
        rx (Sink.tsock k) = pre ++ R :: post ++ rx (Sink.tsock k') ->
        Sink_list k = (Ok l, k') ->
        l = filter is_result pre ++ R :: filter is_result post).
Proof.
  intros R HR. split; [|split; [|split]].
  - intros w q. apply Worker_send_acked.
  - intros k q. apply Sink_next_yields_head. exact HR.
  - intros k ctrl q Hsc Hopen Hall Hrx.
    rewrite (Sink_next_skip ctrl (R :: q) k Hsc Hopen Hrx Hall).
    rewrite (Sink_next_yields_head R _ q HR); try reflexivity.
    + unfold Sink_after. simpl. rewrite Hsc, <- app_assoc. reflexivity.
    + unfold Sink.running, Sink_after. simpl. rewrite Hsc. reflexivity.
  - intros k pre post l k' Hrx Hl.
    pose proof (Sink_collect_spec _ k (Nat.lt_succ_diag_r _)) as P.
    fold (Sink_list k) in P. rewrite Hl in P.
    destruct P as [consumed [H1 [-> _]]].
    rewrite Hrx in H1.
    replace (pre ++ R :: post ++ rx (Sink.tsock k'))
      with ((pre ++ R :: post) ++ rx (Sink.tsock k')) in H1
      by (rewrite <- app_assoc; reflexivity).
    apply app_inv_tail in H1. subst consumed.
    rewrite filter_app. simpl. unfold is_result at 2. rewrite HR. reflexivity.
Qed.

(** A worker joins, a dictionary comes as a result, the worker leaves: the
    sink hands the dictionary to its consumer as it was sent. *)
Lemma result_is_yielded_once_unchanged_witness :
  Sink.next (Sink.init "tcp://b"%string
               [PyInst WorkerJoinMessage;
                PyDict [(PyStr "id"%string, PyInt 7);
                        (PyStr "tags"%string, PyList [PyStr "a"%string; PyNone])];
                PyInst WorkerExitedMessage]) =
  (Ok (PyDict [(PyStr "id"%string, PyInt 7);
               (PyStr "tags"%string, PyList [PyStr "a"%string; PyNone])]),
   Sink.mk "tcp://b"%string (mkSocket [PyInst WorkerExitedMessage] false) 1 false false
     [Recv Tsock (PyInst WorkerJoinMessage); Send Tsock PyNone;
      Recv Tsock (PyDict [(PyStr "id"%string, PyInt 7);
                          (PyStr "tags"%string, PyList [PyStr "a"%string; PyNone])]);
      Send Tsock PyNone]).
Proof.
  exact (proj1 (proj2 (proj2
           (result_is_yielded_once_unchanged
              (PyDict [(PyStr "id"%string, PyInt 7);
                       (PyStr "tags"%string, PyList [PyStr "a"%string; PyNone])])
              eq_refl)))
           (Sink.init "tcp://b"%string
              [PyInst WorkerJoinMessage;
               PyDict [(PyStr "id"%string, PyInt 7);
                       (PyStr "tags"%string, PyList [PyStr "a"%string; PyNone])];
               PyInst WorkerExitedMessage])
           [PyInst WorkerJoinMessage] [PyInst WorkerExitedMessage]
           eq_refl eq_refl eq_refl eq_refl).
Defined.

(** C1 as stated fails: an instance of [WorkerExitedMessage] sent as a
    result is acknowledged to the worker, and the sink, which had one worker
    registered, counts it as an exit and goes on waiting: the consumer never
    gets it. *)
Lemma message_instance_sent_as_result_is_not_yielded :
  let R := PyInst WorkerExitedMessage in
  let w := Worker.mk "tcp://a"%string "tcp://b"%string (mkSocket [] false)
             (mkSocket [PyNone] false) false [] in
  let k := Sink.mk "tcp://b"%string (mkSocket [R] false) 1 false false [] in
  fst (Worker.send R w) = Ok tt /\
  Worker.trace (snd (Worker.send R w)) = [Send Tsock R; Recv Tsock PyNone] /\
  Sink.next k =
  (Blocked,
   Sink.mk "tcp://b"%string (mkSocket [] false) 0 false false
     [Recv Tsock R; Send Tsock PyNone]) /\
  fst (Sink_list (Sink_deliver [R; PyInst SourceExitedMessage] k)) = Ok [].
Proof.
  cbv zeta. split; [reflexivity|]. split; [reflexivity|]. split; reflexivity.
Qed.

(** ** Source.close: the drain loop *)

Lemma count_nil (p : pyobj -> bool) : count p [] = 0.
Proof. reflexivity. Qed.

Lemma Source_drained_nil (s : Source.t) :
  Source_drained s [] (rx (Source.ssock s)) [] = s.
Proof.
  destruct s as [sa ta [q c] tk n cl tr]. unfold Source_drained, joins, exits. simpl.
  rewrite !count_nil, app_nil_r, Z.add_0_r, Z.sub_0_r. reflexivity.
Qed.

Lemma Source_drained_cons (s : Source.t) (c : pyobj) (q served rest : list pyobj)
      (extra : list event) :
  sock_closed (Source.ssock s) = false ->
  Source_drained (Source_drained s [c] q []) served rest extra =
  Source_drained s (c :: served) rest extra.
Proof.
  intros Hopen. unfold Source_drained, joins, exits. simpl.
  rewrite Hopen, !(count_cons _ c), !count_nil, <- !app_assoc. simpl.
  f_equal. lia.
Qed.

Lemma positive_before_cons (n : Z) (c : pyobj) (served : list pyobj) :
  0 < n ->
  positive_before (n + joins [c] - exits [c]) served = true ->
  positive_before n (c :: served) = true.
Proof.
  intros Hn H. simpl. rewrite H. apply Z.ltb_lt in Hn. rewrite Hn. reflexivity.
Qed.

Lemma Source_drain_handled (s : Source.t) (c : pyobj) (q : list pyobj) :
  0 < Source.nworkers s ->
  sock_closed (Source.ssock s) = false ->
  rx (Source.ssock s) = c :: q ->
  handled c = true ->
  Source.drain s = Source.drain (Source_drained s [c] q []).
Proof.
  intros Hn Hopen Hrx Hc. apply Z.ltb_lt in Hn.
  rewrite Source_drain_unfold at 1. rewrite Hn, Hopen, Hrx. cbv zeta.
  assert (Hst : forall n' reply,
             n' = Source.nworkers s + joins [c] - exits [c] ->
             reply = closing_reply c ->
             Source.set_nworkers n'
               (log (Send Ssock reply)
                  (log (Recv Ssock c) (Source.set_ssock (mkSocket q false) s))) =
             Source_drained s [c] q []).
  { intros n' reply -> ->. destruct s as [sa ta [q' cl] tk n c' tr].
    simpl in Hopen. subst cl. unfold Source_drained, log. simpl.
    unfold Source.set_nworkers, Source.set_trace, Source.set_ssock. simpl.
    rewrite <- app_assoc. reflexivity. }
  unfold handled in Hc. unfold joins, exits in Hst.
  rewrite !count_cons, !count_nil in Hst.
  destruct (is_None c) eqn:N.
  - f_equal. rewrite <- (Hst (Source.nworkers s) (PyInst NoMoreJobsMessage)).
    + destruct s; reflexivity.
    + destruct c; try discriminate N. unfold is_join, is_exit, isinstance. lia.
    + unfold closing_reply. rewrite N. reflexivity.
  - simpl in Hc. destruct (join_or_exit_cases c Hc) as [_ [[J E]|[J E]]];
      rewrite J, E in Hst; unfold is_join in J; unfold is_exit in E; rewrite J, ?E;
      f_equal; apply Hst; try lia; unfold closing_reply; rewrite N; reflexivity.
Qed.

Lemma Source_drain_unhandled (s : Source.t) (c : pyobj) (q : list pyobj) :
  0 < Source.nworkers s ->
  sock_closed (Source.ssock s) = false ->
  rx (Source.ssock s) = c :: q ->
  handled c = false ->
  Source.drain s =
  (Raise (Error "Invalid request"%string c), Source_drained s [] q [Recv Ssock c]).
Proof.
  intros Hn Hopen Hrx Hc. apply Z.ltb_lt in Hn.
  rewrite Source_drain_unfold, Hn, Hopen, Hrx. cbv zeta.
  unfold handled, join_or_exit, is_join, is_exit in Hc.
  apply orb_false_elim in Hc as [N Hc]. apply orb_false_elim in Hc as [J E].
  rewrite N, J, E. f_equal.
  destruct s as [sa ta [q' cl] tk n c' tr]. simpl in Hopen. subst cl.
  unfold Source_drained, joins, exits, log. simpl.
  rewrite !count_nil, Z.add_0_r, Z.sub_0_r. reflexivity.
Qed.

Lemma Source_drain_post_step (s : Source.t) (c : pyobj) (q : list pyobj)
      (r : outcome (option unit) * Source.t) :
  0 < Source.nworkers s ->
  sock_closed (Source.ssock s) = false ->
  rx (Source.ssock s) = c :: q ->
  handled c = true ->
  Source_drain_post (Source_drained s [c] q []) r -> Source_drain_post s r.
Proof.
  intros Hn Hopen Hrx Hc. destruct r as [o s']. simpl.
  intros [served [Hall [Hpos H]]]. rewrite Hopen in H. exists (c :: served).
  split; [simpl; rewrite Hc; exact Hall|].
  split; [apply positive_before_cons; assumption|].
  destruct o as [u|[msg bad| |]| |]; try contradiction.
  - destruct H as [rest [-> [-> Hle]]]. exists rest. rewrite Hrx.
    rewrite Source_drained_cons in * by exact Hopen. auto.
  - destruct H as [rest [-> [-> [Hb [Hm _]]]]]. exists rest. rewrite Hrx.
    rewrite Source_drained_cons by exact Hopen. auto.
  - destruct H as [_ [_ H]]. discriminate H.
  - destruct H as [-> [-> [Hlt _]]]. rewrite Hrx.
    rewrite Source_drained_cons in * by exact Hopen. auto.
Qed.

Lemma Source_drain_spec (q : list pyobj) :
  forall s : Source.t, rx (Source.ssock s) = q -> Source_drain_post s (Source.drain s).
Proof.
  induction q as [|c q IH]; intros s Hrx;
    (destruct (0 <? Source.nworkers s) eqn:Hn;
     [apply Z.ltb_lt in Hn|
      apply Z.ltb_ge in Hn; rewrite Source_drain_unfold;
      rewrite (proj2 (Z.ltb_ge _ _) Hn);
      exists []; split; [reflexivity|]; split; [reflexivity|];
      exists (rx (Source.ssock s)); rewrite Source_drained_nil; auto]);
    (destruct (sock_closed (Source.ssock s)) eqn:Hopen;
     [rewrite Source_drain_unfold, (proj2 (Z.ltb_lt _ _) Hn), Hopen;
      exists []; split; [reflexivity|]; split; [reflexivity|]; auto|]).
  - rewrite Source_drain_unfold, (proj2 (Z.ltb_lt _ _) Hn), Hopen, Hrx.
    exists []. split; [reflexivity|]. split; [reflexivity|].
    pose proof (Source_drained_nil s) as E. rewrite Hrx in E. rewrite E. auto.
  - destruct (handled c) eqn:Hc.
    + rewrite (Source_drain_handled s c q Hn Hopen Hrx Hc).
      apply (Source_drain_post_step s c q _ Hn Hopen Hrx Hc).
      apply IH. reflexivity.
    + rewrite (Source_drain_unhandled s c q Hn Hopen Hrx Hc).
      exists []. split; [reflexivity|]. split; [reflexivity|].
      exists q. auto.
Qed.

(** ** Source.close: the whole method *)

Lemma Source_close_unfold (s : Source.t) :
  Source.closed s = false ->
  Source.close s =
  match Source.drain (Source.set_closed true s) with
  | (Ok _, s1) => Source.inform_sink s1
  | (Raise e, s1) => (Raise e, s1)
  | (Blocked, s1) => (Blocked, s1)
  | (OutOfFuel, s1) => (OutOfFuel, s1)
  end.
Proof.
  intros H. unfold Source.close. rewrite H. unfold bind at 1 2, modify.
  destruct (Source.drain (Source.set_closed true s)) as [[u|e| |] s1]; reflexivity.
Qed.

(** The handshake with the sink, by cases on the sink's reply. *)
Lemma Source_inform_sink_reply (s : Source.t) (rep : pyobj) (q : list pyobj) :
  sock_closed (Source.tsock s) = false ->
  rx (Source.tsock s) = rep :: q ->
  Source.inform_sink s =
  if is_None rep then
    (Ok tt,
     Source.mk (Source.saddr s) (Source.taddr s)
       (mkSocket (rx (Source.ssock s)) true) (mkSocket q true)
       (Source.nworkers s) (Source.closed s)
       (Source.trace s ++ [Send Tsock (PyInst SourceExitedMessage); Recv Tsock rep;
                           Close Tsock; Close Ssock]))
  else
    (Raise (Error "Invalid response"%string rep),
     Source.mk (Source.saddr s) (Source.taddr s) (Source.ssock s) (mkSocket q false)
       (Source.nworkers s) (Source.closed s)
       (Source.trace s ++ [Send Tsock (PyInst SourceExitedMessage); Recv Tsock rep])).
Proof.
  destruct s as [sa ta sk [q' c] n cl tr]; simpl; intros -> ->.
  unfold Source.inform_sink. run_body.
  destruct (is_None rep); simpl; rewrite <- !app_assoc; reflexivity.
Qed.


Lemma positive_before_inv (n : Z) (c : pyobj) (served : list pyobj) :
  positive_before n (c :: served) = true ->
  0 < n /\ positive_before (n + joins [c] - exits [c]) served = true.
Proof.
  simpl. intros H. apply andb_prop in H as [Hn H]. apply Z.ltb_lt in Hn. auto.
Qed.

Lemma Source_drain_through (served rest : list pyobj) :
  forall s : Source.t,
    sock_closed (Source.ssock s) = false ->
    rx (Source.ssock s) = served ++ rest ->
    forallb handled served = true ->
    positive_before (Source.nworkers s) served = true ->
    Source.drain s = Source.drain (Source_drained s served rest []).
Proof.
  induction served as [|c served IH]; intros s Hopen Hrx Hall Hpos.
  - simpl in Hrx. rewrite <- Hrx, Source_drained_nil. reflexivity.
  - simpl in Hall. apply andb_prop in Hall as [Hc Hall].
    apply positive_before_inv in Hpos as [Hn Hpos].
    rewrite (Source_drain_handled s c (served ++ rest) Hn Hopen Hrx Hc).
    rewrite (IH (Source_drained s [c] (served ++ rest) [])); simpl; auto.
    rewrite Source_drained_cons by exact Hopen. reflexivity.
Qed.

Lemma count_le_1 (p : pyobj -> bool) (c : pyobj) : 0 <= count p [c] <= 1.
Proof. rewrite count_cons, count_nil. destruct (p c); lia. Qed.

Lemma Source_close_count_not_positive (s : Source.t) (rep : pyobj) (q : list pyobj) :
  Source.closed s = false ->
  Source.nworkers s <= 0 ->
  sock_closed (Source.tsock s) = false ->
  rx (Source.tsock s) = rep :: q ->
  Source.close s =
  if is_None rep then
    (Ok tt,
     Source.mk (Source.saddr s) (Source.taddr s)
       (mkSocket (rx (Source.ssock s)) true) (mkSocket q true) (Source.nworkers s) true
       (Source.trace s ++ [Send Tsock (PyInst SourceExitedMessage); Recv Tsock rep;
                           Close Tsock; Close Ssock]))
  else
    (Raise (Error "Invalid response"%string rep),
     Source.mk (Source.saddr s) (Source.taddr s) (Source.ssock s) (mkSocket q false)
       (Source.nworkers s) true
       (Source.trace s ++ [Send Tsock (PyInst SourceExitedMessage); Recv Tsock rep])).
Proof.
  intros Hcl Hn Hopen Hrx.
  rewrite (Source_close_unfold s Hcl), Source_drain_unfold.
  change (Source.nworkers (Source.set_closed true s)) with (Source.nworkers s).
  apply Z.ltb_ge in Hn. rewrite Hn.
  rewrite (Source_inform_sink_reply (Source.set_closed true s) rep q Hopen Hrx).
  destruct s as [sa ta sk tk n cl tr]. reflexivity.
Qed.

(** C10. When [Source.close()] finds the worker count at 0, no request is
    taken from the reply socket and nothing is answered on it: the source
    sends [SourceExitedMessage] to the sink at once and, on its [None],
    closes both sockets, the pending requests still pending; any other reply
    raises the protocol error. *)
Theorem Source_close_without_workers_skips_drain :
  forall (s : Source.t) (rep : pyobj) (q : list pyobj),
    Source.closed s = false ->
    Source.nworkers s = 0 ->
    sock_closed (Source.tsock s) = false ->
    rx (Source.tsock s) = rep :: q ->
    Source.close s =
    if is_None rep then
      (Ok tt,
       Source.mk (Source.saddr s) (Source.taddr s)
         (mkSocket (rx (Source.ssock s)) true) (mkSocket q true) 0 true
         (Source.trace s ++ [Send Tsock (PyInst SourceExitedMessage); Recv Tsock rep;
                             Close Tsock; Close Ssock]))
    else
      (Raise (Error "Invalid response"%string rep),
       Source.mk (Source.saddr s) (Source.taddr s) (Source.ssock s) (mkSocket q false) 0 true
         (Source.trace s ++ [Send Tsock (PyInst SourceExitedMessage); Recv Tsock rep])).
Proof.
  intros s rep q Hcl Hn Hopen Hrx.
  rewrite (Source_close_count_not_positive s rep q Hcl) by (assumption || lia).
  rewrite Hn. reflexivity.
Qed.

(** A fresh source nobody joined, two plain requests waiting on it. *)
Lemma Source_close_without_workers_skips_drain_witness :
  Source.close (Source.init "tcp://a"%string "tcp://b"%string [PyNone; PyNone] [PyNone]) =
  (Ok tt,
   Source.mk "tcp://a"%string "tcp://b"%string
     (mkSocket [PyNone; PyNone] true) (mkSocket [] true) 0 true
     [Send Tsock (PyInst SourceExitedMessage); Recv Tsock PyNone; Close Tsock; Close Ssock]).
Proof.
  exact (Source_close_without_workers_skips_drain
           (Source.init "tcp://a"%string "tcp://b"%string [PyNone; PyNone] [PyNone])
           PyNone [] eq_refl eq_refl eq_refl eq_refl).
Defined.

Lemma positive_before_end (served : list pyobj) :
  forall n : Z,
    positive_before n served = true -> served <> [] ->
    0 <= n + joins served - exits served.
Proof.
  induction served as [|c served IH]; intros n H Hne; [contradiction|].
  apply positive_before_inv in H as [Hn H].
  pose proof (count_le_1 is_join c) as Hj. pose proof (count_le_1 is_exit c) as He.
  destruct served as [|c' served].
  - unfold joins, exits. lia.
  - assert (Hne' : c' :: served <> []) by discriminate.
    specialize (IH _ H Hne'). unfold joins, exits in *.
    rewrite (count_cons _ c). rewrite (count_cons is_exit c).
    rewrite !(count_cons _ c), !count_nil in IH. lia.
Qed.

(** C4.  A closing source answers the requests [served] that come while its
    count is positive.  While the count stays positive and nothing more is
    pending it waits, [SourceExitedMessage] unsent and both sockets open.
    Once the count is no longer positive (it is then 0, having come down
    from a positive value or started non-negative) it sends
    [SourceExitedMessage] to the sink and reads the reply: on [None] it
    closes both sockets and returns; any other reply raises the protocol
    error, both sockets still open. *)
Theorem Source_close_drains_then_informs_sink :
  forall (s : Source.t) (served rest : list pyobj),
    Source.closed s = false ->
    sock_closed (Source.ssock s) = false ->
    sock_closed (Source.tsock s) = false ->
    rx (Source.ssock s) = served ++ rest ->
    forallb handled served = true ->
    positive_before (Source.nworkers s) served = true ->
    let n' := Source.nworkers s + joins served - exits served in
    let answered := Source.trace s ++ flat_map drained_request served in
    (0 < n' -> rest = [] ->
     Source.close s =
     (Blocked,
      Source.mk (Source.saddr s) (Source.taddr s) (mkSocket [] false) (Source.tsock s)
        n' true answered)) /\
    (n' <= 0 -> forall rep q, rx (Source.tsock s) = rep :: q ->
     Source.close s =
     if is_None rep then
       (Ok tt,
        Source.mk (Source.saddr s) (Source.taddr s) (mkSocket rest true) (mkSocket q true)
          n' true
          (answered ++ [Send Tsock (PyInst SourceExitedMessage); Recv Tsock rep;
                        Close Tsock; Close Ssock]))
     else
       (Raise (Error "Invalid response"%string rep),
        Source.mk (Source.saddr s) (Source.taddr s) (mkSocket rest false) (mkSocket q false)
          n' true
          (answered ++ [Send Tsock (PyInst SourceExitedMessage); Recv Tsock rep]))) /\
    (n' <= 0 -> served <> [] \/ 0 <= Source.nworkers s -> n' = 0).
Proof.
  intros s served rest Hcl Hs Ht Hrx Hall Hpos n' answered.
  assert (Hdrain : Source.drain (Source.set_closed true s) =
                   Source.drain (Source_drained (Source.set_closed true s) served rest [])).
  { apply Source_drain_through; assumption. }
  split; [|split].
  - intros Hn ->. rewrite (Source_close_unfold s Hcl), Hdrain, Source_drain_unfold.
    destruct s as [sa ta sk tk n cl tr]. simpl in *. fold n'.
    apply Z.ltb_lt in Hn. rewrite Hn, Hs. unfold Source_drained. simpl.
    rewrite Hs, app_nil_r. reflexivity.
  - intros Hn rep q Hrep. rewrite (Source_close_unfold s Hcl), Hdrain, Source_drain_unfold.
    change (Source.nworkers (Source_drained (Source.set_closed true s) served rest []))
      with n'.
    apply Z.ltb_ge in Hn. rewrite Hn.
    rewrite (Source_inform_sink_reply
               (Source_drained (Source.set_closed true s) served rest []) rep q Ht Hrep).
    destruct s as [sa ta sk tk n cl tr]. subst n' answered. simpl in *.
    rewrite Hs, app_nil_r. reflexivity.
  - intros Hn [Hne|H0].
    + pose proof (positive_before_end served _ Hpos Hne). unfold n' in *. lia.
    + destruct served as [|c served].
      * unfold n', joins, exits in *. rewrite !count_nil in *. lia.
      * assert (Hne : c :: served <> []) by discriminate.
        pose proof (positive_before_end _ _ Hpos Hne). unfold n' in *. lia.
Qed.

(** One worker registered: a plain request, a join, two exits, and the sink
    acknowledges. *)
Lemma Source_close_drains_then_informs_sink_witness :
  Source.close
    (Source.mk "tcp://a"%string "tcp://b"%string
       (mkSocket [PyNone; PyInst WorkerJoinMessage; PyInst WorkerExitedMessage;
                  PyInst WorkerExitedMessage; PyNone] false)
       (mkSocket [PyNone] false) 1 false []) =
  (Ok tt,
   Source.mk "tcp://a"%string "tcp://b"%string
     (mkSocket [PyNone] true) (mkSocket [] true) 0 true
     [Recv Ssock PyNone; Send Ssock (PyInst NoMoreJobsMessage);
      Recv Ssock (PyInst WorkerJoinMessage); Send Ssock PyNone;
      Recv Ssock (PyInst WorkerExitedMessage); Send Ssock PyNone;
      Recv Ssock (PyInst WorkerExitedMessage); Send Ssock PyNone;
      Send Tsock (PyInst SourceExitedMessage); Recv Tsock PyNone;
      Close Tsock; Close Ssock]).
Proof.
  refine (proj1 (proj2
            (Source_close_drains_then_informs_sink
               (Source.mk "tcp://a"%string "tcp://b"%string
                  (mkSocket [PyNone; PyInst WorkerJoinMessage; PyInst WorkerExitedMessage;
                             PyInst WorkerExitedMessage; PyNone] false)
                  (mkSocket [PyNone] false) 1 false [])
               [PyNone; PyInst WorkerJoinMessage; PyInst WorkerExitedMessage;
                PyInst WorkerExitedMessage]
               [PyNone] eq_refl eq_refl eq_refl eq_refl eq_refl eq_refl))
            _ PyNone [] eq_refl).
  vm_compute. discriminate.
Defined.

(** ** After Source.close: no more jobs *)

Lemma Source_close_finish (s : Source.t) :
  Source.closed s = false ->
  Source.close s = Source_finish (Source.set_closed true s).
Proof. intros H. unfold Source.close. rewrite H. reflexivity. Qed.






(** ** Worker: the join and exit handshakes *)

Lemma Worker_close_unfold (w : Worker.t) :
  Worker.closed w = false ->
  Worker.close w =
  if sock_closed (Worker.ssock w) then (Raise ZMQError, Worker.set_closed true w)
  else
    let sent := Worker.trace w ++ [Send Ssock (PyInst WorkerExitedMessage)] in
    match rx (Worker.ssock w) with
    | [] =>
        (Blocked,
         Worker.mk (Worker.saddr w) (Worker.taddr w) (Worker.ssock w) (Worker.tsock w)
           true sent)
    | rep :: q =>
        if is_None rep then
          if sock_closed (Worker.tsock w) then
            (Raise ZMQError,
             Worker.mk (Worker.saddr w) (Worker.taddr w) (mkSocket q false) (Worker.tsock w)
               true (sent ++ [Recv Ssock rep]))
          else
            let sent2 := sent ++ [Recv Ssock rep; Send Tsock (PyInst WorkerExitedMessage)] in
            match rx (Worker.tsock w) with
            | [] =>
                (Blocked,
                 Worker.mk (Worker.saddr w) (Worker.taddr w) (mkSocket q false)
                   (Worker.tsock w) true sent2)
            | rep2 :: q2 =>
                (if is_None rep2 then Ok tt
                 else Raise (Error "Invalid response"%string rep2),
                 Worker.mk (Worker.saddr w) (Worker.taddr w) (mkSocket q false)
                   (mkSocket q2 false) true (sent2 ++ [Recv Tsock rep2]))
            end
        else
          (Raise (Error "Invalid response"%string rep),
           Worker.mk (Worker.saddr w) (Worker.taddr w) (mkSocket q false) (Worker.tsock w)
             true (sent ++ [Recv Ssock rep]))
    end.
Proof.
  destruct w as [sa ta [q c] [q2 c2] cl tr]; simpl; intros ->.
  unfold Worker.close. cbv iota.
  destruct c; [reflexivity|].
  destruct q as [|rep q]; [reflexivity|].
  run_body. destruct (is_None rep); simpl; [|reflexivity].
  destruct c2; simpl; [reflexivity|].
  destruct q2 as [|rep2 q2]; simpl; [rewrite <- !app_assoc; reflexivity|].
  destruct (is_None rep2); simpl; rewrite <- !app_assoc; reflexivity.
Qed.

Lemma Worker_init_unfold (sa ta : string) (from_source from_sink : list pyobj) :
  Worker.init sa ta from_source from_sink =
  match from_source with
  | [] =>
      (Blocked,
       Worker.mk sa ta (mkSocket [] false) (mkSocket from_sink false) false
         [Send Ssock (PyInst WorkerJoinMessage)])
  | rep :: q =>
      if is_None rep then
        match from_sink with
        | [] =>
            (Blocked,
             Worker.mk sa ta (mkSocket q false) (mkSocket [] false) false
               [Send Ssock (PyInst WorkerJoinMessage); Recv Ssock rep;
                Send Tsock (PyInst WorkerJoinMessage)])
        | rep2 :: q2 =>
            (if is_None rep2 then Ok tt
             else Raise (Error "Invalid response"%string rep2),
             Worker.mk sa ta (mkSocket q false) (mkSocket q2 false) false
               [Send Ssock (PyInst WorkerJoinMessage); Recv Ssock rep;
                Send Tsock (PyInst WorkerJoinMessage); Recv Tsock rep2])
        end
      else
        (Raise (Error "Invalid response"%string rep),
         Worker.mk sa ta (mkSocket q false) (mkSocket from_sink false) false
           [Send Ssock (PyInst WorkerJoinMessage); Recv Ssock rep])
  end.
Proof.
  unfold Worker.init, Worker.alloc, Worker.join, req_socket.
  destruct from_source as [|rep q]; [reflexivity|].
  run_body. destruct (is_None rep); simpl; [|reflexivity].
  destruct from_sink as [|rep2 q2]; simpl; [reflexivity|].
  destruct (is_None rep2); reflexivity.
Qed.

Lemma is_None_true (o : pyobj) : is_None o = true -> o = PyNone.
Proof. destruct o; unfold is_None; intros H; try discriminate H; reflexivity. Qed.

(** C7.  A reply [rep] other than [None] to a worker's join or exit message
    raises the protocol error on the spot.  At construction, from the source
    or from the sink: [__init__] raises, so that [Worker(saddr, taddr)] gives
    its caller no worker to iterate on, and a source that refused is not
    followed by a join to the sink.  In [close()], from the source or from
    the sink alike.  A caller holds a worker only after both peers answered
    [None]. *)
Theorem Worker_raises_on_bad_handshake_reply :
  forall rep : pyobj,
    is_None rep = false ->
    (forall sa ta q from_sink,
        Worker.init sa ta (rep :: q) from_sink =
        (Raise (Error "Invalid response"%string rep),
         Worker.mk sa ta (mkSocket q false) (mkSocket from_sink false) false
           [Send Ssock (PyInst WorkerJoinMessage); Recv Ssock rep]) /\
        Worker.new sa ta (rep :: q) from_sink = Raise (Error "Invalid response"%string rep)) /\
    (forall sa ta q q2,
        Worker.init sa ta (PyNone :: q) (rep :: q2) =
        (Raise (Error "Invalid response"%string rep),
         Worker.mk sa ta (mkSocket q false) (mkSocket q2 false) false
           [Send Ssock (PyInst WorkerJoinMessage); Recv Ssock PyNone;
            Send Tsock (PyInst WorkerJoinMessage); Recv Tsock rep]) /\
        Worker.new sa ta (PyNone :: q) (rep :: q2) =
        Raise (Error "Invalid response"%string rep)) /\
    (forall w q,
        Worker.closed w = false ->
        sock_closed (Worker.ssock w) = false ->
        rx (Worker.ssock w) = rep :: q ->
        Worker.close w =
        (Raise (Error "Invalid response"%string rep),
         Worker.mk (Worker.saddr w) (Worker.taddr w) (mkSocket q false) (Worker.tsock w) true
           (Worker.trace w ++ [Send Ssock (PyInst WorkerExitedMessage); Recv Ssock rep]))) /\
    (forall w q q2,
        Worker.closed w = false ->
        sock_closed (Worker.ssock w) = false ->
        sock_closed (Worker.tsock w) = false ->
        rx (Worker.ssock w) = PyNone :: q ->
        rx (Worker.tsock w) = rep :: q2 ->
        Worker.close w =
        (Raise (Error "Invalid response"%string rep),
         Worker.mk (Worker.saddr w) (Worker.taddr w) (mkSocket q false) (mkSocket q2 false)
           true
           (Worker.trace w ++ [Send Ssock (PyInst WorkerExitedMessage); Recv Ssock PyNone;
                               Send Tsock (PyInst WorkerExitedMessage); Recv Tsock rep]))) /\
    (forall sa ta from_source from_sink w,
        Worker.new sa ta from_source from_sink = Ok w ->
        exists q q2, from_source = PyNone :: q /\ from_sink = PyNone :: q2).
Proof.
  intros rep Hrep. split; [|split; [|split; [|split]]].
  - intros sa ta q from_sink. unfold Worker.new.
    rewrite Worker_init_unfold, Hrep. auto.
  - intros sa ta q q2. unfold Worker.new.
    rewrite Worker_init_unfold, Hrep. simpl. auto.
  - intros w q Hcl Hs Hrx.
    rewrite (Worker_close_unfold w Hcl), Hs, Hrx, Hrep. cbv zeta.
    rewrite <- app_assoc. reflexivity.
  - intros w q q2 Hcl Hs Ht Hrx Hrx2.
    rewrite (Worker_close_unfold w Hcl), Hs, Hrx, Ht, Hrx2, Hrep. cbv zeta. simpl.
    rewrite <- !app_assoc. reflexivity.
  - intros sa ta from_source from_sink w. unfold Worker.new.
    rewrite Worker_init_unfold.
    destruct from_source as [|r q]; [discriminate|].
    destruct (is_None r) eqn:Hr; [|discriminate].
    destruct from_sink as [|r2 q2]; [discriminate|].
    destruct (is_None r2) eqn:Hr2; [|discriminate].
    intros _. exists q, q2.
    rewrite (is_None_true r Hr), (is_None_true r2 Hr2). auto.
Qed.

(** A source that answers a join with [NoMoreJobsMessage]: no worker. *)
Lemma Worker_raises_on_bad_handshake_reply_witness :
  Worker.new "tcp://a"%string "tcp://b"%string [PyInst NoMoreJobsMessage] [PyNone] =
  Raise (Error "Invalid response"%string (PyInst NoMoreJobsMessage)).
Proof.
  exact (proj2 (proj1 (Worker_raises_on_bad_handshake_reply (PyInst NoMoreJobsMessage) eq_refl)
                  "tcp://a"%string "tcp://b"%string [] [PyNone])).
Defined.

(** ** close() on the three roles *)

Lemma Source_inform_sink_closed (s : Source.t) :
  Source.closed (snd (Source.inform_sink s)) = Source.closed s.
Proof.
  destruct s as [sa ta sk [q c] n cl tr].
  unfold Source.inform_sink.
  destruct c; [reflexivity|]. destruct q as [|rep q]; [reflexivity|].
  run_body. destruct (is_None rep); reflexivity.
Qed.

Lemma Source_close_sets_closed (s : Source.t) :
  Source.closed (snd (Source.close s)) = true.
Proof.
  destruct (Source.closed s) eqn:Hcl.
  - unfold Source.close. rewrite Hcl. exact Hcl.
  - rewrite (Source_close_finish s Hcl). unfold Source_finish, bind.
    pose proof (Source_drain_spec _ (Source.set_closed true s) eq_refl) as P.
    destruct (Source.drain (Source.set_closed true s)) as [o s1].
    destruct P as [served [_ [_ P]]].
    destruct o as [u|[msg bad| |]| |]; try contradiction.
    + destruct P as [rest [_ [-> _]]]. rewrite Source_inform_sink_closed. reflexivity.
    + destruct P as [rest [_ [-> _]]]. reflexivity.
    + destruct P as [_ [-> _]]. reflexivity.
    + destruct P as [_ [-> _]]. reflexivity.
Qed.

Lemma Sink_close_sets_closed (k : Sink.t) :
  Sink.closed (snd (Sink.close k)) = true.
Proof.
  destruct k as [ta tk n sc cl tr]. unfold Sink.close. simpl.
  destruct cl; reflexivity.
Qed.

Lemma Worker_close_sets_closed (w : Worker.t) :
  Worker.closed (snd (Worker.close w)) = true.
Proof.
  destruct (Worker.closed w) eqn:Hcl.
  - unfold Worker.close. rewrite Hcl. exact Hcl.
  - rewrite (Worker_close_unfold w Hcl).
    destruct (sock_closed (Worker.ssock w)); [reflexivity|].
    destruct (rx (Worker.ssock w)) as [|rep q]; [reflexivity|].
    destruct (is_None rep); [|reflexivity].
    destruct (sock_closed (Worker.tsock w)); [reflexivity|].
    destruct (rx (Worker.tsock w)) as [|rep2 q2]; reflexivity.
Qed.

Lemma Source_close_closed (s : Source.t) :
  Source.closed s = true -> Source.close s = (Ok tt, s).
Proof. intros H. unfold Source.close. rewrite H. reflexivity. Qed.

Lemma Sink_close_closed (k : Sink.t) :
  Sink.closed k = true -> Sink.close k = (Ok tt, k).
Proof. intros H. unfold Sink.close. rewrite H. reflexivity. Qed.

Lemma Worker_close_closed (w : Worker.t) :
  Worker.closed w = true -> Worker.close w = (Ok tt, w).
Proof. intros H. unfold Worker.close. rewrite H. reflexivity. Qed.

(** C8.  On a source, a sink or a worker, whatever the first [close()] did,
    the state it leaves is one on which [close()] returns at once and
    changes nothing: no attribute, no socket, and no event added to the
    trace, so nothing sent and no handshake.  The same holds of any state
    whose closed flag is set, hence of every later call. *)
Theorem close_is_idempotent :
  (forall s : Source.t,
      Source.close (snd (Source.close s)) = (Ok tt, snd (Source.close s))) /\
  (forall k : Sink.t,
      Sink.close (snd (Sink.close k)) = (Ok tt, snd (Sink.close k))) /\
  (forall w : Worker.t,
      Worker.close (snd (Worker.close w)) = (Ok tt, snd (Worker.close w))) /\
  (forall s : Source.t, Source.closed s = true -> Source.close s = (Ok tt, s)) /\
  (forall k : Sink.t, Sink.closed k = true -> Sink.close k = (Ok tt, k)) /\
  (forall w : Worker.t, Worker.closed w = true -> Worker.close w = (Ok tt, w)).
Proof.
  repeat split.
  - intros s. apply Source_close_closed, Source_close_sets_closed.
  - intros k. apply Sink_close_closed, Sink_close_sets_closed.
  - intros w. apply Worker_close_closed, Worker_close_sets_closed.
  - apply Source_close_closed.
  - apply Sink_close_closed.
  - apply Worker_close_closed.
Qed.

(** A worker closes, both peers acknowledge; closing it again does nothing. *)
Lemma close_is_idempotent_witness :
  Worker.close
    (Worker.mk "tcp://a"%string "tcp://b"%string (mkSocket [] false) (mkSocket [] false) true
       [Send Ssock (PyInst WorkerExitedMessage); Recv Ssock PyNone;
        Send Tsock (PyInst WorkerExitedMessage); Recv Tsock PyNone]) =
  (Ok tt,
   Worker.mk "tcp://a"%string "tcp://b"%string (mkSocket [] false) (mkSocket [] false) true
     [Send Ssock (PyInst WorkerExitedMessage); Recv Ssock PyNone;
      Send Tsock (PyInst WorkerExitedMessage); Recv Tsock PyNone]).
Proof.
  exact (proj2 (proj2 (proj2 (proj2 (proj2 close_is_idempotent))))
           (Worker.mk "tcp://a"%string "tcp://b"%string
              (mkSocket [] false) (mkSocket [] false) true
              [Send Ssock (PyInst WorkerExitedMessage); Recv Ssock PyNone;
               Send Tsock (PyInst WorkerExitedMessage); Recv Tsock PyNone])
           eq_refl).
Defined.


(** C9.  However [close()] ends, returning, raising or waiting for a reply
    that does not come, the closed flag of the source, sink or worker is
    set in the state it leaves.  A worker whose [WorkerExitedMessage] the
    source answers with something else than [None] raises the protocol
    error marked closed, nothing having been sent to the sink, and a later
    [close()] returns at once: the exit is never announced to the sink.
    Likewise a source whose [SourceExitedMessage] the sink answers with
    something else than [None] stays marked closed with both sockets open,
    and a later [close()] does not close them. *)
Theorem close_marks_closed_before_handshake :
  (forall s : Source.t, Source.closed (snd (Source.close s)) = true) /\
  (forall k : Sink.t, Sink.closed (snd (Sink.close k)) = true) /\
  (forall w : Worker.t, Worker.closed (snd (Worker.close w)) = true) /\
  (forall (w : Worker.t) (rep : pyobj) (q : list pyobj),
      Worker.closed w = false ->
      sock_closed (Worker.ssock w) = false ->
      rx (Worker.ssock w) = rep :: q ->
      is_None rep = false ->
      let w' := Worker.mk (Worker.saddr w) (Worker.taddr w) (mkSocket q false)
                  (Worker.tsock w) true
                  (Worker.trace w ++
                   [Send Ssock (PyInst WorkerExitedMessage); Recv Ssock rep]) in
      Worker.close w = (Raise (Error "Invalid response"%string rep), w') /\
      Worker.close w' = (Ok tt, w')) /\
  (forall (s : Source.t) (rep : pyobj) (q : list pyobj),
      Source.closed s = false ->
      Source.nworkers s <= 0 ->
      sock_closed (Source.ssock s) = false ->
      sock_closed (Source.tsock s) = false ->
      rx (Source.tsock s) = rep :: q ->
      is_None rep = false ->
      let s' := Source.mk (Source.saddr s) (Source.taddr s) (Source.ssock s)
                  (mkSocket q false) (Source.nworkers s) true
                  (Source.trace s ++
                   [Send Tsock (PyInst SourceExitedMessage); Recv Tsock rep]) in
      Source.close s = (Raise (Error "Invalid response"%string rep), s') /\
      Source.close s' = (Ok tt, s') /\
      sock_closed (Source.ssock s') = false /\ sock_closed (Source.tsock s') = false).
Proof.
  split; [exact Source_close_sets_closed|].
  split; [exact Sink_close_sets_closed|].
  split; [exact Worker_close_sets_closed|].
  split.
  - intros w rep q Hcl Hs Hrx Hrep w'. split.
    + rewrite (Worker_close_unfold w Hcl), Hs, Hrx, Hrep. cbv zeta.
      rewrite <- app_assoc. reflexivity.
    + apply Worker_close_closed. reflexivity.
  - intros s rep q Hcl Hn Hs Ht Hrx Hrep s'. split; [|split; [|split]].
    + rewrite (Source_close_count_not_positive s rep q Hcl Hn Ht Hrx), Hrep. reflexivity.
    + apply Source_close_closed. reflexivity.
    + exact Hs.
    + reflexivity.
Qed.

(** A worker closing against a source that answers its exit with a task. *)
Lemma close_marks_closed_before_handshake_witness :
  Worker.close
    (Worker.mk "tcp://a"%string "tcp://b"%string
       (mkSocket [PyStr "job-2"%string] false) (mkSocket [PyNone] false) false []) =
  (Raise (Error "Invalid response"%string (PyStr "job-2"%string)),
   Worker.mk "tcp://a"%string "tcp://b"%string (mkSocket [] false) (mkSocket [PyNone] false)
     true
     [Send Ssock (PyInst WorkerExitedMessage); Recv Ssock (PyStr "job-2"%string)]).
Proof.
  exact (proj1 (proj1 (proj2 (proj2 (proj2 close_marks_closed_before_handshake)))
                  (Worker.mk "tcp://a"%string "tcp://b"%string
                     (mkSocket [PyStr "job-2"%string] false) (mkSocket [PyNone] false)
                     false [])
                  (PyStr "job-2"%string) [] eq_refl eq_refl eq_refl eq_refl)).
Defined.

(** ** The fuel is never exhausted *)

Lemma Source_send_fuel (task : pyobj) (q : list pyobj) :
  forall s : Source.t,
    rx (Source.ssock s) = q -> fst (Source.send task s) <> OutOfFuel.
Proof.
  induction q as [|req q IH]; intros s Hrx; rewrite Source_send_unfold, Hrx;
    destruct (sock_closed (Source.ssock s)); try discriminate.
  cbv zeta.
  destruct (is_None req); [discriminate|].
  destruct (isinstance req WorkerJoinMessage); [apply IH; reflexivity|].
  destruct (isinstance req WorkerExitedMessage); [apply IH; reflexivity|].
  discriminate.
Qed.

Lemma Sink_next_fuel (k : Sink.t) : fst (Sink.next k) <> OutOfFuel.
Proof.
  pose proof (Sink_next_consumes _ k eq_refl) as P.
  destruct (Sink.next k) as [o k']. destruct P as [consumed [_ [_ P]]].
  destruct o; try discriminate. contradiction.
Qed.

Lemma Sink_list_fuel (k : Sink.t) : fst (Sink_list k) <> OutOfFuel.
Proof.
  pose proof (Sink_collect_spec _ k (Nat.lt_succ_diag_r _)) as P.
  fold (Sink_list k) in P.
  destruct (Sink_list k) as [o k']. destruct P as [consumed [_ P]].
  destruct o; try discriminate. contradiction.
Qed.

Lemma Source_close_fuel (s : Source.t) : fst (Source.close s) <> OutOfFuel.
Proof.
  destruct (Source.closed s) eqn:Hcl.
  - rewrite (Source_close_closed s Hcl). discriminate.
  - rewrite (Source_close_finish s Hcl). unfold Source_finish, bind.
    pose proof (Source_drain_spec _ (Source.set_closed true s) eq_refl) as P.
    destruct (Source.drain (Source.set_closed true s)) as [o s1].
    destruct P as [served [_ [_ P]]].
    destruct o as [u|e| |]; try discriminate; try contradiction.
    destruct s1 as [sa ta sk [q c] n cl tr]. unfold Source.inform_sink.
    destruct c; [discriminate|]. destruct q as [|rep q]; [discriminate|].
    run_body. destruct (is_None rep); discriminate.
Qed.

(** * More of the module *)

(** ** Sink.next: the state a call leaves *)

Lemma control_cases (c : pyobj) :
  sink_control c = true ->
  (c = PyInst WorkerJoinMessage \/ c = PyInst WorkerExitedMessage)
  \/ c = PyInst SourceExitedMessage.
Proof.
  unfold sink_control, isinstance.
  destruct c as [| | | | | |cl]; simpl; intros H; try discriminate H.
  destruct cl; cbv in H; try discriminate H; auto.
Qed.

Lemma Sink_received_nil (k : Sink.t) :
  Sink_received k [] (rx (Sink.tsock k)) = k.
Proof.
  destruct k as [ta [q c] n sc cl tr]. unfold Sink_received, joins, exits. simpl.
  rewrite !count_nil, app_nil_r, Z.add_0_r, Z.sub_0_r, orb_false_r. reflexivity.
Qed.

Lemma Sink_received_cons (k : Sink.t) (c : pyobj) (q consumed rest : list pyobj) :
  Sink_received (Sink_received k [c] q) consumed rest =
  Sink_received k (c :: consumed) rest.
Proof.
  unfold Sink_received, joins, exits. simpl.
  rewrite !(count_cons _ c), !count_nil, <- !app_assoc, orb_false_r, orb_assoc. simpl.
  f_equal. lia.
Qed.

Lemma Sink_next_receive (k : Sink.t) (c : pyobj) (q : list pyobj) :
  Sink.running k = true ->
  sock_closed (Sink.tsock k) = false ->
  rx (Sink.tsock k) = c :: q ->
  Sink.next k =
  if sink_control c then Sink.next (Sink_received k [c] q)
  else (Ok c, Sink_received k [c] q).
Proof.
  intros Hrun Hopen Hrx. rewrite Sink_next_unfold, Hrun, Hopen, Hrx. cbv zeta.
  assert (Hst : forall n' sc',
             n' = Sink.nworkers k + joins [c] - exits [c] ->
             sc' = Sink.source_closed k || is_source_exited c ->
             Sink.mk (Sink.taddr k) (mkSocket q false) n' sc' (Sink.closed k)
               ((Sink.trace k ++ [Recv Tsock c]) ++ [Send Tsock PyNone]) =
             Sink_received k [c] q).
  { intros n' sc' -> ->. unfold Sink_received. simpl.
    rewrite Hopen, orb_false_r, <- app_assoc. reflexivity. }
  destruct (sink_control c) eqn:Hc.
  - destruct (control_cases c Hc) as [[->| ->]| ->];
      unfold isinstance, issubclass; cbn [cls_eqb orb]; f_equal.
    + rewrite <- (Hst (Sink.nworkers k + 1) (Sink.source_closed k)).
      * destruct k; reflexivity.
      * unfold joins, exits, count, is_join, is_exit, isinstance. simpl. lia.
      * rewrite orb_false_r. reflexivity.
    + rewrite <- (Hst (Sink.nworkers k - 1) (Sink.source_closed k)).
      * destruct k; reflexivity.
      * unfold joins, exits, count, is_join, is_exit, isinstance. simpl. lia.
      * rewrite orb_false_r. reflexivity.
    + rewrite <- (Hst (Sink.nworkers k) true).
      * destruct k; reflexivity.
      * unfold joins, exits, count, is_join, is_exit, isinstance. simpl. lia.
      * rewrite orb_true_r. reflexivity.
  - unfold sink_control in Hc. apply orb_false_elim in Hc as [Hc X].
    apply orb_false_elim in Hc as [J E]. rewrite J, E, X. f_equal.
    rewrite <- (Hst (Sink.nworkers k) (Sink.source_closed k)).
    + destruct k; reflexivity.
    + unfold joins, exits. rewrite !count_cons, !count_nil.
      unfold is_join, is_exit. rewrite J, E. lia.
    + unfold is_source_exited. rewrite X, orb_false_r. reflexivity.
Qed.

Lemma Sink_next_state (q : list pyobj) :
  forall k : Sink.t,
    rx (Sink.tsock k) = q ->
    exists consumed rest,
      rx (Sink.tsock k) = consumed ++ rest /\
      snd (Sink.next k) = Sink_received k consumed rest.
Proof.
  induction q as [|c q IH]; intros k Hrx;
    (destruct (Sink.running k) eqn:Hrun;
     [|exists [], (rx (Sink.tsock k)); rewrite Sink_next_unfold, Hrun, Sink_received_nil; auto]);
    (destruct (sock_closed (Sink.tsock k)) eqn:Hopen;
     [exists [], (rx (Sink.tsock k));
      rewrite Sink_next_unfold, Hrun, Hopen, Sink_received_nil; auto|]).
  - exists [], (rx (Sink.tsock k)).
    rewrite Sink_next_unfold, Hrun, Hopen, Sink_received_nil, Hrx. auto.
  - rewrite (Sink_next_receive k c q Hrun Hopen Hrx), Hrx.
    destruct (sink_control c).
    + destruct (IH (Sink_received k [c] q) eq_refl) as [consumed [rest [H1 H2]]].
      simpl in H1. exists (c :: consumed), rest.
      rewrite H2, Sink_received_cons, H1. auto.
    + exists [c], q. auto.
Qed.

(** X1.  A call of [Sink.next], however it ends, has received a prefix of
    the pending messages and answered each with [None] right after receiving
    it: the count moved by the joins minus the exits among them, the
    source-closed flag is set if it was or if a [SourceExitedMessage] was
    among them, and the closed flag and the address are as before.  The sink
    has no protocol error of its own: [next] never raises [Error]. *)
Theorem Sink_next_acknowledges_and_counts :
  forall k : Sink.t,
    (exists consumed rest,
        rx (Sink.tsock k) = consumed ++ rest /\
        snd (Sink.next k) = Sink_received k consumed rest) /\
    (forall msg o, fst (Sink.next k) <> Raise (Error msg o)).
Proof.
  intros k. split; [exact (Sink_next_state _ k eq_refl)|].
  intros msg o H. pose proof (Sink_next_consumes _ k eq_refl) as P.
  destruct (Sink.next k) as [r k']. simpl in H. subst r.
  destruct P as [consumed [_ [_ P]]]. exact P.
Qed.

Lemma Sink_next_draining (q : list pyobj) :
  forall k : Sink.t,
    rx (Sink.tsock k) = q ->
    Sink.source_closed k = true ->
    0 <= Sink.nworkers k ->
    Sink.source_closed (snd (Sink.next k)) = true /\
    0 <= Sink.nworkers (snd (Sink.next k)) /\
    (fst (Sink.next k) = Raise StopIteration -> Sink.nworkers (snd (Sink.next k)) = 0).
Proof.
  induction q as [|c q IH]; intros k Hrx Hsc Hn;
    (destruct (Sink.running k) eqn:Hrun;
     [|rewrite Sink_next_unfold, Hrun; simpl;
       apply running_false_iff in Hrun; destruct Hrun as [_ Hle];
       repeat split; auto; lia]);
    (destruct (sock_closed (Sink.tsock k)) eqn:Hopen;
     [rewrite Sink_next_unfold, Hrun, Hopen; simpl; repeat split; auto; discriminate|]).
  - rewrite Sink_next_unfold, Hrun, Hopen, Hrx. simpl. repeat split; auto. discriminate.
  - assert (Hpos : 0 < Sink.nworkers k).
    { unfold Sink.running in Hrun. rewrite Hsc in Hrun. simpl in Hrun.
      apply Z.ltb_lt. exact Hrun. }
    pose proof (count_le_1 is_join c) as Hj. pose proof (count_le_1 is_exit c) as He.
    rewrite (Sink_next_receive k c q Hrun Hopen Hrx).
    destruct (sink_control c).
    + apply IH; [reflexivity|simpl; rewrite Hsc; reflexivity|].
      simpl. unfold joins, exits. lia.
    + simpl. rewrite Hsc. unfold joins, exits. repeat split; auto; try lia. discriminate.
Qed.

(** X2.  Once the source has exited, the sink's count cannot fall below
    zero: from a non-negative count, a call of [Sink.next] leaves the
    source-closed flag set and the count non-negative, and when it ends the
    sequence the count is exactly 0. *)
Theorem Sink_count_stays_nonnegative_after_source_exit :
  forall k : Sink.t,
    Sink.source_closed k = true ->
    0 <= Sink.nworkers k ->
    Sink.source_closed (snd (Sink.next k)) = true /\
    0 <= Sink.nworkers (snd (Sink.next k)) /\
    (fst (Sink.next k) = Raise StopIteration -> Sink.nworkers (snd (Sink.next k)) = 0).
Proof. intros k. exact (Sink_next_draining _ k eq_refl). Qed.

(** Two workers registered at a sink that saw the source exit: an exit, a
    result. *)
Lemma Sink_count_stays_nonnegative_after_source_exit_witness :
  0 <= Sink.nworkers
         (snd (Sink.next (Sink.mk "tcp://b"%string
                            (mkSocket [PyInst WorkerExitedMessage; PyInt 4] false)
                            2 true false []))).
Proof.
  exact (proj1 (proj2
           (Sink_count_stays_nonnegative_after_source_exit
              (Sink.mk "tcp://b"%string
                 (mkSocket [PyInst WorkerExitedMessage; PyInt 4] false) 2 true false [])
              eq_refl ltac:(simpl; lia)))).
Defined.

(** ** Iterating the sink, and closing it *)

(** X3.  When [list(sink)] returns, the list holds exactly the messages
    consumed that are not control messages, in the order they arrived; the
    sink is left exhausted, so that [next] raises [StopIteration] from then
    on without receiving, and a second [list(sink)] returns the empty list:
    the sequence cannot be restarted.  The iteration itself never ends on
    [Error] or on a stray [StopIteration]. *)
Theorem Sink_list_returns_results_in_order :
  forall (k k' : Sink.t) (l : list pyobj),
    Sink_list k = (Ok l, k') ->
    (exists consumed,
        rx (Sink.tsock k) = consumed ++ rx (Sink.tsock k') /\
        l = filter is_result consumed) /\
    Sink.source_closed k' = true /\ Sink.nworkers k' <= 0 /\
    Sink.next k' = (Raise StopIteration, k') /\
    Sink_list k' = (Ok [], k') /\
    (forall k0 msg o, fst (Sink_list k0) <> Raise (Error msg o)) /\
    (forall k0, fst (Sink_list k0) <> Raise StopIteration).
Proof.
  intros k k' l H.
  pose proof (Sink_collect_spec _ k (Nat.lt_succ_diag_r _)) as P.
  fold (Sink_list k) in P. rewrite H in P. destruct P as [consumed [H1 [H2 H3]]].
  assert (Hstop : Sink.next k' = (Raise StopIteration, k')).
  { apply Sink_next_exhausted. exact H3. }
  split; [exists consumed; auto|]. destruct H3 as [Hsc Hn].
  split; [exact Hsc|]. split; [exact Hn|]. split; [exact Hstop|].
  split; [unfold Sink_list; simpl; rewrite Hstop; reflexivity|].
  split.
  - intros k0 msg o E.
    pose proof (Sink_collect_spec _ k0 (Nat.lt_succ_diag_r _)) as P.
    fold (Sink_list k0) in P. destruct (Sink_list k0) as [r k1]. simpl in E. subst r.
    destruct P as [c [_ P]]. exact P.
  - intros k0 E.
    pose proof (Sink_collect_spec _ k0 (Nat.lt_succ_diag_r _)) as P.
    fold (Sink_list k0) in P. destruct (Sink_list k0) as [r k1]. simpl in E. subst r.
    destruct P as [c [_ P]]. exact P.
Qed.

(** A whole session of one worker seen from the sink: join, two results,
    exit, and the exit of the source; a late join is left unread. *)
Lemma Sink_list_returns_results_in_order_witness :
  Sink.next
    (Sink.mk "tcp://b"%string (mkSocket [PyInst WorkerJoinMessage] false) 0 true false
       [Recv Tsock (PyInst WorkerJoinMessage); Send Tsock PyNone;
        Recv Tsock (PyStr "r1"%string); Send Tsock PyNone;
        Recv Tsock PyNone; Send Tsock PyNone;
        Recv Tsock (PyInst WorkerExitedMessage); Send Tsock PyNone;
        Recv Tsock (PyInst SourceExitedMessage); Send Tsock PyNone]) =
  (Raise StopIteration,
   Sink.mk "tcp://b"%string (mkSocket [PyInst WorkerJoinMessage] false) 0 true false
     [Recv Tsock (PyInst WorkerJoinMessage); Send Tsock PyNone;
      Recv Tsock (PyStr "r1"%string); Send Tsock PyNone;
      Recv Tsock PyNone; Send Tsock PyNone;
      Recv Tsock (PyInst WorkerExitedMessage); Send Tsock PyNone;
      Recv Tsock (PyInst SourceExitedMessage); Send Tsock PyNone]).
Proof.
  refine (proj1 (proj2 (proj2 (proj2
            (Sink_list_returns_results_in_order
               (Sink.init "tcp://b"%string
                  [PyInst WorkerJoinMessage; PyStr "r1"%string; PyNone;
                   PyInst WorkerExitedMessage; PyInst SourceExitedMessage;
                   PyInst WorkerJoinMessage])
               (Sink.mk "tcp://b"%string (mkSocket [PyInst WorkerJoinMessage] false) 0 true
                  false
                  [Recv Tsock (PyInst WorkerJoinMessage); Send Tsock PyNone;
                   Recv Tsock (PyStr "r1"%string); Send Tsock PyNone;
                   Recv Tsock PyNone; Send Tsock PyNone;
                   Recv Tsock (PyInst WorkerExitedMessage); Send Tsock PyNone;
                   Recv Tsock (PyInst SourceExitedMessage); Send Tsock PyNone])
               [PyStr "r1"%string; PyNone] _))))).
  vm_compute. reflexivity.
Defined.

(** X4.  [Sink.close()] on a sink not yet closed never waits for a peer and
    never raises, whatever is pending and whoever is registered: it reads
    and acknowledges nothing, sleeps [CLOSESYNC] = 15 seconds and only then
    closes the socket; the pending messages, the worker count and the
    source-closed flag are left as they were. *)
Theorem Sink_close_sleeps_then_closes_socket :
  forall k : Sink.t,
    Sink.closed k = false ->
    Sink.close k =
    (Ok tt,
     Sink.mk (Sink.taddr k) (mkSocket (rx (Sink.tsock k)) true) (Sink.nworkers k)
       (Sink.source_closed k) true (Sink.trace k ++ [Sleep 15; Close Tsock])).
Proof.
  intros k Hcl. destruct k as [ta [q c] n sc cl tr]. simpl in Hcl. subst cl.
  unfold Sink.close. cbv iota. run_body. rewrite <- app_assoc. reflexivity.
Qed.

(** A sink closed while a worker is registered and a result is pending. *)
Lemma Sink_close_sleeps_then_closes_socket_witness :
  Sink.close (Sink.mk "tcp://b"%string (mkSocket [PyInt 9] false) 1 false false []) =
  (Ok tt,
   Sink.mk "tcp://b"%string (mkSocket [PyInt 9] true) 1 false true
     [Sleep 15; Close Tsock]).
Proof.
  exact (Sink_close_sleeps_then_closes_socket
           (Sink.mk "tcp://b"%string (mkSocket [PyInt 9] false) 1 false false [])
           eq_refl).
Defined.

(** ** Worker against source and sink *)

Lemma new_events_app (old evs : list event) : new_events old (old ++ evs) = evs.
Proof. unfold new_events. induction old as [|e old IH]; simpl; auto. Qed.

Lemma sent_on_app (k : sockname) (l1 l2 : list event) :
  sent_on k (l1 ++ l2) = sent_on k l1 ++ sent_on k l2.
Proof.
  induction l1 as [|e l1 IH]; simpl; [reflexivity|].
  destruct e as [k' o|k' o|k'|z]; try exact IH.
  destruct (sockname_eqb k k'); simpl; rewrite IH; reflexivity.
Qed.

Lemma sent_on_acked (ctrl : list pyobj) :
  sent_on Ssock (flat_map acked ctrl) = map (fun _ => PyNone) ctrl.
Proof. induction ctrl as [|c ctrl IH]; simpl; [reflexivity|]. rewrite IH. reflexivity. Qed.

Lemma Worker_next_unfold (w : Worker.t) :
  Worker.next w =
  if sock_closed (Worker.ssock w) then (Raise ZMQError, w)
  else
    match rx (Worker.ssock w) with
    | [] =>
        (Blocked,
         Worker.mk (Worker.saddr w) (Worker.taddr w) (Worker.ssock w) (Worker.tsock w)
           (Worker.closed w) (Worker.trace w ++ [Send Ssock PyNone]))
    | task :: q =>
        (if isinstance task NoMoreJobsMessage then Raise StopIteration else Ok task,
         Worker.mk (Worker.saddr w) (Worker.taddr w) (mkSocket q false) (Worker.tsock w)
           (Worker.closed w) (Worker.trace w ++ [Send Ssock PyNone; Recv Ssock task]))
    end.
Proof.
  destruct w as [sa ta [q c] tk cl tr]. unfold Worker.next.
  destruct c; [reflexivity|]. destruct q as [|task q]; [reflexivity|].
  run_body. rewrite <- app_assoc.
  destruct (isinstance task NoMoreJobsMessage); reflexivity.
Qed.

Lemma Worker_send_unfold (result : pyobj) (w : Worker.t) :
  Worker.send result w =
  if sock_closed (Worker.tsock w) then (Raise ZMQError, w)
  else
    match rx (Worker.tsock w) with
    | [] =>
        (Blocked,
         Worker.mk (Worker.saddr w) (Worker.taddr w) (Worker.ssock w) (Worker.tsock w)
           (Worker.closed w) (Worker.trace w ++ [Send Tsock result]))
    | rep :: q =>
        (if is_None rep then Ok tt else Raise (Error "Invalid response"%string rep),
         Worker.mk (Worker.saddr w) (Worker.taddr w) (Worker.ssock w) (mkSocket q false)
           (Worker.closed w) (Worker.trace w ++ [Send Tsock result; Recv Tsock rep]))
    end.
Proof.
  destruct w as [sa ta sk [q c] cl tr]. unfold Worker.send.
  destruct c; [reflexivity|]. destruct q as [|rep q]; [reflexivity|].
  run_body. rewrite <- app_assoc.
  destruct (is_None rep); reflexivity.
Qed.

Lemma Source_send_plain_after_control (T : pyobj) (s : Source.t) (ctrl : list pyobj) :
  forallb join_or_exit ctrl = true ->
  Source.send T (Source_deliver (ctrl ++ [PyNone]) s) =
  (Ok tt,
   Source.mk (Source.saddr s) (Source.taddr s) (mkSocket [] false) (Source.tsock s)
     (Source.nworkers s + joins ctrl - exits ctrl) (Source.closed s)
     (Source.trace s ++ flat_map acked ctrl ++ [Recv Ssock PyNone; Send Ssock T])).
Proof.
  intros Hall.
  rewrite (Source_send_skip T ctrl [PyNone] (Source_deliver (ctrl ++ [PyNone]) s));
    [|reflexivity|reflexivity|exact Hall].
  rewrite Source_send_unfold. simpl. unfold is_None, log. simpl.
  rewrite <- !app_assoc. destruct s; reflexivity.
Qed.

Lemma skipn_map_app (ctrl : list pyobj) (l : list pyobj) :
  skipn (List.length ctrl) (map (fun _ => PyNone) ctrl ++ l) = l.
Proof. induction ctrl as [|c ctrl IH]; simpl; auto. Qed.

(** X5.  A task goes from [Source.send] to [Worker.next] as it is.  With the
    joins and exits [ctrl] and then a worker's plain request pending,
    [Source.send(T)] returns after answering [None] to each of [ctrl] and [T]
    to the plain request, the last reply, the count moved by [ctrl] alone.
    The worker, whose [next()] sent that one plain request, gets [T] back
    unchanged, [None] included; only when [T] is itself an instance of
    [NoMoreJobsMessage] does [next()] raise [StopIteration] instead. *)
Theorem task_is_handed_to_the_plain_request :
  forall (T : pyobj) (s : Source.t) (w : Worker.t) (ctrl : list pyobj),
    forallb join_or_exit ctrl = true ->
    let rs := Source.send T (Source_deliver (ctrl ++ [PyNone]) s) in
    let replies := sent_on Ssock (new_events (Source.trace s) (Source.trace (snd rs))) in
    let rw := Worker.next (Worker_deliver_source (skipn (List.length ctrl) replies) w) in
    fst rs = Ok tt /\
    replies = map (fun _ => PyNone) ctrl ++ [T] /\
    Source.nworkers (snd rs) = Source.nworkers s + joins ctrl - exits ctrl /\
    sent_on Ssock (new_events (Worker.trace w) (Worker.trace (snd rw))) = [PyNone] /\
    fst rw = (if isinstance T NoMoreJobsMessage then Raise StopIteration else Ok T) /\
    rx (Worker.ssock (snd rw)) = [].
Proof.
  intros T s w ctrl Hall rs replies rw.
  assert (Hrep : replies = map (fun _ => PyNone) ctrl ++ [T]).
  { unfold replies, rs. rewrite (Source_send_plain_after_control T s ctrl Hall).
    simpl. rewrite new_events_app, sent_on_app, sent_on_acked. reflexivity. }
  unfold rw. rewrite Hrep, skipn_map_app.
  unfold rs. rewrite (Source_send_plain_after_control T s ctrl Hall).
  split; [reflexivity|]. split; [reflexivity|]. split; [reflexivity|].
  rewrite Worker_next_unfold. simpl. rewrite new_events_app. auto.
Qed.

(** A join before the plain request; the task is a list. *)
Lemma task_is_handed_to_the_plain_request_witness :
  fst (Worker.next
         (Worker_deliver_source [PyList [PyInt 1; PyInt 2]]
            (Worker.alloc "tcp://a"%string "tcp://b"%string [] []))) =
  Ok (PyList [PyInt 1; PyInt 2]).
Proof.
  exact (proj1 (proj2 (proj2 (proj2 (proj2
           (task_is_handed_to_the_plain_request
              (PyList [PyInt 1; PyInt 2])
              (Source.init "tcp://a"%string "tcp://b"%string [] [])
              (Worker.alloc "tcp://a"%string "tcp://b"%string [] [])
              [PyInst WorkerJoinMessage] eq_refl)))))).
Defined.

Lemma Sink_next_one (k : Sink.t) (c : pyobj) :
  Sink.running k = true ->
  Sink.next (Sink_deliver [c] k) =
  (if sink_control c then
     if Sink.running (Sink_received (Sink_deliver [c] k) [c] []) then Blocked
     else Raise StopIteration
   else Ok c,
   Sink_received (Sink_deliver [c] k) [c] []).
Proof.
  intros Hrun.
  rewrite (Sink_next_receive (Sink_deliver [c] k) c []); [|exact Hrun|reflexivity|reflexivity].
  destruct (sink_control c); [|reflexivity].
  rewrite Sink_next_unfold.
  destruct (Sink.running (Sink_received (Sink_deliver [c] k) [c] [])); reflexivity.
Qed.

Lemma Source_send_one_control (task : pyobj) (s : Source.t) (c : pyobj) :
  join_or_exit c = true ->
  Source.send task (Source_deliver [c] s) =
  (Blocked, Source_after (Source_deliver [c] s) [c] []).
Proof.
  intros Hc. apply Source_send_only_control. simpl. rewrite Hc. reflexivity.
Qed.

(** X6.  The join handshake of a worker succeeds against a source that is
    in [send()] and a sink whose loop is running.  Each gets the worker's
    [WorkerJoinMessage], answers it with [None], counts one worker more and
    goes on waiting; given these two answers [Worker(saddr, taddr)] returns
    the worker, not closed, having sent one join to each side and nothing
    else. *)
Theorem join_handshake_registers_worker_on_both_sides :
  forall (sa ta : string) (task : pyobj) (s : Source.t) (k : Sink.t),
    Sink.running k = true ->
    let rs := Source.send task (Source_deliver [PyInst WorkerJoinMessage] s) in
    let rk := Sink.next (Sink_deliver [PyInst WorkerJoinMessage] k) in
    let from_source := sent_on Ssock (new_events (Source.trace s) (Source.trace (snd rs))) in
    let from_sink := sent_on Tsock (new_events (Sink.trace k) (Sink.trace (snd rk))) in
    Worker.new sa ta from_source from_sink =
    Ok (Worker.mk sa ta (mkSocket [] false) (mkSocket [] false) false
          [Send Ssock (PyInst WorkerJoinMessage); Recv Ssock PyNone;
           Send Tsock (PyInst WorkerJoinMessage); Recv Tsock PyNone]) /\
    fst rs = Blocked /\ Source.nworkers (snd rs) = Source.nworkers s + 1 /\
    fst rk = Blocked /\ Sink.nworkers (snd rk) = Sink.nworkers k + 1.
Proof.
  intros sa ta task s k Hrun rs rk from_source from_sink.
  unfold from_source, from_sink, rs, rk.
  rewrite (Source_send_one_control task s (PyInst WorkerJoinMessage) eq_refl).
  rewrite (Sink_next_one k (PyInst WorkerJoinMessage) Hrun).
  simpl. rewrite !new_events_app. simpl.
  replace (Sink.running _) with true.
  - repeat split; unfold joins, exits, count; simpl; lia.
  - unfold Sink.running in *. simpl.
    destruct (Sink.source_closed k); simpl in *; [|reflexivity].
    apply Z.ltb_lt in Hrun. symmetry. apply Z.ltb_lt.
    unfold joins, exits, count. simpl. lia.
Qed.

(** A fresh source and a fresh sink. *)
Lemma join_handshake_registers_worker_on_both_sides_witness :
  Sink.nworkers
    (snd (Sink.next (Sink_deliver [PyInst WorkerJoinMessage] (Sink.init "tcp://b"%string [])))) =
  0 + 1.
Proof.
  exact (proj2 (proj2 (proj2 (proj2
           (join_handshake_registers_worker_on_both_sides
              "tcp://a"%string "tcp://b"%string (PyStr "job"%string)
              (Source.init "tcp://a"%string "tcp://b"%string [] [])
              (Sink.init "tcp://b"%string []) eq_refl))))).
Defined.

(** X7.  The exit handshake of a worker succeeds against a source that is in
    [send()] and a sink whose loop is running.  Each answers the worker's
    [WorkerExitedMessage] with [None] and counts one worker less; the source
    goes on waiting, and the sink either goes on waiting or, when the source
    has exited and this was the last worker, ends its sequence.  Given these
    two answers [Worker.close()] returns, the worker marked closed. *)
Theorem exit_handshake_unregisters_worker_on_both_sides :
  forall (task : pyobj) (s : Source.t) (k : Sink.t) (w : Worker.t),
    Sink.running k = true ->
    Worker.closed w = false ->
    let rs := Source.send task (Source_deliver [PyInst WorkerExitedMessage] s) in
    let rk := Sink.next (Sink_deliver [PyInst WorkerExitedMessage] k) in
    let from_source := sent_on Ssock (new_events (Source.trace s) (Source.trace (snd rs))) in
    let from_sink := sent_on Tsock (new_events (Sink.trace k) (Sink.trace (snd rk))) in
    Worker.close (Worker_deliver from_source from_sink w) =
    (Ok tt,
     Worker.mk (Worker.saddr w) (Worker.taddr w) (mkSocket [] false) (mkSocket [] false) true
       (Worker.trace w ++
        [Send Ssock (PyInst WorkerExitedMessage); Recv Ssock PyNone;
         Send Tsock (PyInst WorkerExitedMessage); Recv Tsock PyNone])) /\
    fst rs = Blocked /\ Source.nworkers (snd rs) = Source.nworkers s - 1 /\
    Sink.nworkers (snd rk) = Sink.nworkers k - 1 /\
    fst rk = (if Sink.source_closed k && (Sink.nworkers k <=? 1)
              then Raise StopIteration else Blocked).
Proof.
  intros task s k w Hrun Hcl rs rk from_source from_sink.
  unfold from_source, from_sink, rs, rk.
  rewrite (Source_send_one_control task s (PyInst WorkerExitedMessage) eq_refl).
  rewrite (Sink_next_one k (PyInst WorkerExitedMessage) Hrun).
  simpl. rewrite !new_events_app. simpl.
  split; [|split; [reflexivity|split; [|split]]].
  - rewrite Worker_close_unfold by exact Hcl. simpl. unfold is_None.
    rewrite <- !app_assoc. destruct w; reflexivity.
  - unfold joins, exits, count. simpl. lia.
  - unfold joins, exits, count. simpl. lia.
  - unfold Sink.running. simpl. unfold joins, exits, count. simpl.
    destruct (Sink.source_closed k); simpl; [|reflexivity].
    destruct (Sink.nworkers k <=? 1) eqn:E.
    + apply Z.leb_le in E. replace (0 <? _) with false; [reflexivity|].
      symmetry. apply Z.ltb_ge. lia.
    + apply Z.leb_gt in E. replace (0 <? _) with true; [reflexivity|].
      symmetry. apply Z.ltb_lt. lia.
Qed.

(** The last worker leaves a sink that has seen the source exit. *)
Lemma exit_handshake_unregisters_worker_on_both_sides_witness :
  fst (Sink.next (Sink_deliver [PyInst WorkerExitedMessage]
                    (Sink.mk "tcp://b"%string (mkSocket [] false) 1 true false []))) =
  Raise StopIteration.
Proof.
  exact (proj2 (proj2 (proj2 (proj2
           (exit_handshake_unregisters_worker_on_both_sides
              (PyStr "job"%string)
              (Source.mk "tcp://a"%string "tcp://b"%string (mkSocket [] false)
                 (mkSocket [] false) 1 false [])
              (Sink.mk "tcp://b"%string (mkSocket [] false) 1 true false [])
              (Worker.mk "tcp://a"%string "tcp://b"%string (mkSocket [] false)
                 (mkSocket [] false) false [])
              eq_refl eq_refl))))).
Defined.

(** X8.  A worker can still join a source that is closing while another
    worker is registered.  [Source.close()], with the newcomer's join and
    then its plain request pending, answers [None] to the join, counting the
    newcomer, and [NoMoreJobsMessage] to the request, sends nothing to the
    sink and waits on: it now waits for the newcomer's exit too.  The
    newcomer's constructor returns, and its first [next()] raises
    [StopIteration]. *)
Theorem worker_joining_a_closing_source_gets_no_job :
  forall (sa ta : string) (s : Source.t),
    Source.closed s = false ->
    0 < Source.nworkers s ->
    let rs := Source.close (Source_deliver [PyInst WorkerJoinMessage; PyNone] s) in
    let from_source := sent_on Ssock (new_events (Source.trace s) (Source.trace (snd rs))) in
    let w := Worker.mk sa ta (mkSocket [PyInst NoMoreJobsMessage] false) (mkSocket [] false)
               false
               [Send Ssock (PyInst WorkerJoinMessage); Recv Ssock PyNone;
                Send Tsock (PyInst WorkerJoinMessage); Recv Tsock PyNone] in
    fst rs = Blocked /\
    Source.nworkers (snd rs) = Source.nworkers s + 1 /\
    from_source = [PyNone; PyInst NoMoreJobsMessage] /\
    sent_on Tsock (new_events (Source.trace s) (Source.trace (snd rs))) = [] /\
    Worker.new sa ta from_source [PyNone] = Ok w /\
    fst (Worker.next w) = Raise StopIteration.
Proof.
  intros sa ta s Hcl Hn rs from_source w.
  assert (E : rs =
              (Blocked,
               Source_drained
                 (Source.set_closed true
                    (Source_deliver [PyInst WorkerJoinMessage; PyNone] s))
                 [PyInst WorkerJoinMessage; PyNone] [] [])).
  { unfold rs. rewrite Source_close_unfold by exact Hcl.
    rewrite (Source_drain_through [PyInst WorkerJoinMessage; PyNone] []);
      [|reflexivity|reflexivity|reflexivity|].
    - rewrite Source_drain_unfold. simpl.
      replace (0 <? _) with true; [reflexivity|].
      symmetry. apply Z.ltb_lt. unfold joins, exits, count. simpl. lia.
    - simpl. unfold joins, exits, count. simpl.
      apply Z.ltb_lt in Hn. rewrite Hn. simpl. rewrite andb_true_r.
      apply Z.ltb_lt. apply Z.ltb_lt in Hn. lia. }
  unfold from_source. rewrite E. simpl. rewrite !new_events_app. simpl.
  repeat split. unfold joins, exits, count. simpl. lia.
Qed.

(** One worker registered at the source being closed. *)
Lemma worker_joining_a_closing_source_gets_no_job_witness :
  fst (Source.close
         (Source_deliver [PyInst WorkerJoinMessage; PyNone]
            (Source.mk "tcp://a"%string "tcp://b"%string (mkSocket [] false)
               (mkSocket [] false) 1 false []))) = Blocked.
Proof.
  refine (proj1 (worker_joining_a_closing_source_gets_no_job
                   "tcp://a"%string "tcp://b"%string
                   (Source.mk "tcp://a"%string "tcp://b"%string (mkSocket [] false)
                      (mkSocket [] false) 1 false [])
                   eq_refl _)).
  simpl. lia.
Defined.

(** X9.  [Worker.send(R)] against the sink: the worker sends [R] once.  A
    sink whose loop is running receives it, whatever [R] is, and answers
    [None], on which [send] returns; a sink whose sequence is exhausted does
    not receive it, [next] raising [StopIteration] with [R] left pending, so
    that no answer comes and [send] never returns. *)
Theorem Worker_send_returns_iff_sink_is_running :
  forall (R : pyobj) (w : Worker.t) (k : Sink.t),
    let rk := Sink.next (Sink_deliver [R] k) in
    let replies := sent_on Tsock (new_events (Sink.trace k) (Sink.trace (snd rk))) in
    let rw := Worker.send R (Worker_deliver_sink replies w) in
    sent_on Tsock (new_events (Worker.trace w) (Worker.trace (snd rw))) = [R] /\
    (Sink.running k = true -> replies = [PyNone] /\ fst rw = Ok tt) /\
    (Sink.running k = false ->
     replies = [] /\ rk = (Raise StopIteration, Sink_deliver [R] k) /\ fst rw = Blocked).
Proof.
  intros R w k rk replies rw.
  destruct (Sink.running k) eqn:Hrun.
  - assert (Hrep : replies = [PyNone]).
    { unfold replies, rk. rewrite (Sink_next_one k R Hrun). simpl.
      rewrite new_events_app. reflexivity. }
    unfold rw. rewrite Hrep, Worker_send_unfold. simpl.
    rewrite new_events_app. simpl. repeat split; discriminate.
  - assert (Hrk : rk = (Raise StopIteration, Sink_deliver [R] k)).
    { unfold rk. rewrite Sink_next_unfold.
      change (Sink.running (Sink_deliver [R] k)) with (Sink.running k).
      rewrite Hrun. reflexivity. }
    assert (Hrep : replies = []).
    { unfold replies. rewrite Hrk. simpl.
      rewrite <- (app_nil_r (Sink.trace k)) at 2. rewrite new_events_app. reflexivity. }
    unfold rw. rewrite Hrep, Worker_send_unfold. simpl.
    rewrite new_events_app. simpl. repeat split; try discriminate; assumption.
Qed.

(** A result sent to a sink that has seen the source and every worker exit. *)
Lemma Worker_send_returns_iff_sink_is_running_witness :
  fst (Worker.send (PyInt 5)
         (Worker_deliver_sink []
            (Worker.mk "tcp://a"%string "tcp://b"%string (mkSocket [] false)
               (mkSocket [] false) false []))) = Blocked.
Proof.
  exact (proj2 (proj2 (proj2 (proj2
           (Worker_send_returns_iff_sink_is_running (PyInt 5)
              (Worker.mk "tcp://a"%string "tcp://b"%string (mkSocket [] false)
                 (mkSocket [] false) false [])
              (Sink.mk "tcp://b"%string (mkSocket [] false) 0 true false []))) eq_refl))).
Defined.

Lemma Worker_close_trace (w : Worker.t) :
  exists evs,
    Worker.trace (snd (Worker.close w)) = Worker.trace w ++ evs /\
    (forall k, ~ In (Close k) evs) /\
    sock_closed (Worker.ssock (snd (Worker.close w))) = sock_closed (Worker.ssock w) /\
    sock_closed (Worker.tsock (snd (Worker.close w))) = sock_closed (Worker.tsock w).
Proof.
  assert (Hno : forall (k : sockname) (l : list event),
             forallb (fun e => match e with Close _ => false | _ => true end) l = true ->
             ~ In (Close k) l).
  { intros k l H Hin. rewrite forallb_forall in H. specialize (H _ Hin). discriminate H. }
  destruct (Worker.closed w) eqn:Hcl.
  - rewrite (Worker_close_closed w Hcl). exists []. simpl. rewrite app_nil_r. auto.
  - rewrite (Worker_close_unfold w Hcl). cbv zeta.
    destruct (sock_closed (Worker.ssock w)) eqn:Hs.
    { exists []. simpl. rewrite app_nil_r. auto. }
    destruct (rx (Worker.ssock w)) as [|rep q]; simpl.
    { eexists. split; [reflexivity|]. split; [intros k; apply Hno; reflexivity|auto]. }
    destruct (is_None rep); simpl.
    + destruct (sock_closed (Worker.tsock w)) eqn:Ht; simpl.
      { eexists. split; [rewrite <- app_assoc; reflexivity|].
        split; [intros k; apply Hno; reflexivity|auto]. }
      destruct (rx (Worker.tsock w)) as [|rep2 q2]; simpl.
      { eexists. split; [rewrite <- app_assoc; reflexivity|].
        split; [intros k; apply Hno; reflexivity|auto]. }
      eexists. split; [rewrite <- !app_assoc; reflexivity|].
      split; [intros k; apply Hno; reflexivity|auto].
    + eexists. split; [rewrite <- app_assoc; reflexivity|].
      split; [intros k; apply Hno; reflexivity|auto].
Qed.

(** X10.  [Worker.close()] never releases the worker's sockets: however it
    ends, it closes neither socket, and both are open afterwards if they
    were before.  Nor do the other methods look at the closed flag: on the
    worker a [close()] leaves, [next()] still sends its plain request to the
    source and [send(R)] still sends [R] to the sink. *)
Theorem Worker_close_keeps_sockets_open :
  forall (w : Worker.t) (R : pyobj),
    let w1 := snd (Worker.close w) in
    (exists evs,
        Worker.trace w1 = Worker.trace w ++ evs /\ (forall k, ~ In (Close k) evs)) /\
    sock_closed (Worker.ssock w1) = sock_closed (Worker.ssock w) /\
    sock_closed (Worker.tsock w1) = sock_closed (Worker.tsock w) /\
    (sock_closed (Worker.ssock w) = false ->
     sent_on Ssock (new_events (Worker.trace w1) (Worker.trace (snd (Worker.next w1)))) =
     [PyNone]) /\
    (sock_closed (Worker.tsock w) = false ->
     sent_on Tsock (new_events (Worker.trace w1) (Worker.trace (snd (Worker.send R w1)))) =
     [R]).
Proof.
  intros w R w1.
  destruct (Worker_close_trace w) as [evs [H1 [H2 [H3 H4]]]]. fold w1 in H1, H3, H4.
  split; [exists evs; auto|]. split; [exact H3|]. split; [exact H4|]. split.
  - intros Hs. rewrite Worker_next_unfold, H3, Hs.
    destruct (rx (Worker.ssock w1)); simpl; rewrite new_events_app; reflexivity.
  - intros Ht. rewrite Worker_send_unfold, H4, Ht.
    destruct (rx (Worker.tsock w1)); simpl; rewrite new_events_app; reflexivity.
Qed.

(** A worker closed with both acknowledgements, then asked for a task. *)
Lemma Worker_close_keeps_sockets_open_witness :
  sent_on Ssock
    (new_events
       (Worker.trace
          (snd (Worker.close
                  (Worker.mk "tcp://a"%string "tcp://b"%string (mkSocket [PyNone] false)
                     (mkSocket [PyNone] false) false []))))
       (Worker.trace
          (snd (Worker.next
                  (snd (Worker.close
                          (Worker.mk "tcp://a"%string "tcp://b"%string
                             (mkSocket [PyNone] false) (mkSocket [PyNone] false)
                             false []))))))) = [PyNone].
Proof.
  exact (proj1 (proj2 (proj2 (proj2
           (Worker_close_keeps_sockets_open
              (Worker.mk "tcp://a"%string "tcp://b"%string (mkSocket [PyNone] false)
                 (mkSocket [PyNone] false) false [])
              PyNone)))) eq_refl).
Defined.

(** ** Source.close: every outcome *)

Lemma Source_inform_sink_cases (s : Source.t) :
  Source.nworkers (snd (Source.inform_sink s)) = Source.nworkers s /\
  exists extra,
    Source.trace (snd (Source.inform_sink s)) = Source.trace s ++ extra /\
    match fst (Source.inform_sink s) with
    | Ok _ =>
        extra = [Send Tsock (PyInst SourceExitedMessage); Recv Tsock PyNone;
                 Close Tsock; Close Ssock] /\
        sock_closed (Source.ssock (snd (Source.inform_sink s))) = true /\
        sock_closed (Source.tsock (snd (Source.inform_sink s))) = true
    | Blocked =>
        extra = [Send Tsock (PyInst SourceExitedMessage)] /\
        sock_closed (Source.ssock (snd (Source.inform_sink s))) =
        sock_closed (Source.ssock s) /\
        sock_closed (Source.tsock (snd (Source.inform_sink s))) = false
    | Raise (Error msg bad) =>
        extra = [Send Tsock (PyInst SourceExitedMessage); Recv Tsock bad] /\
        msg = "Invalid response"%string /\ is_None bad = false /\
        sock_closed (Source.ssock (snd (Source.inform_sink s))) =
        sock_closed (Source.ssock s) /\
        sock_closed (Source.tsock (snd (Source.inform_sink s))) = false
    | Raise ZMQError =>
        extra = [] /\ snd (Source.inform_sink s) = s /\
        sock_closed (Source.tsock s) = true
    | Raise StopIteration => False
    | OutOfFuel => False
    end.
Proof.
  destruct (sock_closed (Source.tsock s)) eqn:Ht.
  - destruct s as [sa ta sk [q c] n cl tr]. simpl in Ht. subst c.
    unfold Source.inform_sink. simpl. split; [reflexivity|].
    exists []. rewrite app_nil_r. auto.
  - destruct (rx (Source.tsock s)) as [|rep q] eqn:Hrx.
    + destruct s as [sa ta sk [q c] n cl tr]. simpl in Ht, Hrx. subst c q.
      unfold Source.inform_sink. simpl. split; [reflexivity|].
      eexists. split; [reflexivity|]. auto.
    + rewrite (Source_inform_sink_reply s rep q Ht Hrx).
      destruct (is_None rep) eqn:N; simpl; (split; [reflexivity|]);
        eexists; (split; [reflexivity|]).
      * rewrite (is_None_true rep N). auto.
      * auto.
Qed.

Lemma Source_close_cases (s : Source.t) :
  Source.closed s = false ->
  exists served extra,
    forallb handled served = true /\
    positive_before (Source.nworkers s) served = true /\
    Source.nworkers (snd (Source.close s)) =
    Source.nworkers s + joins served - exits served /\
    Source.trace (snd (Source.close s)) =
    Source.trace s ++ flat_map drained_request served ++ extra /\
    match fst (Source.close s) with
    | Ok _ =>
        Source.nworkers (snd (Source.close s)) <= 0 /\
        extra = [Send Tsock (PyInst SourceExitedMessage); Recv Tsock PyNone;
                 Close Tsock; Close Ssock] /\
        sock_closed (Source.ssock (snd (Source.close s))) = true /\
        sock_closed (Source.tsock (snd (Source.close s))) = true
    | Blocked =>
        (0 < Source.nworkers (snd (Source.close s)) /\ extra = [] \/
         Source.nworkers (snd (Source.close s)) <= 0 /\
         extra = [Send Tsock (PyInst SourceExitedMessage)]) /\
        sock_closed (Source.ssock (snd (Source.close s))) = sock_closed (Source.ssock s) /\
        sock_closed (Source.tsock (snd (Source.close s))) = sock_closed (Source.tsock s)
    | Raise (Error msg bad) =>
        (extra = [Recv Ssock bad] /\ msg = "Invalid request"%string /\ handled bad = false \/
         Source.nworkers (snd (Source.close s)) <= 0 /\
         extra = [Send Tsock (PyInst SourceExitedMessage); Recv Tsock bad] /\
         msg = "Invalid response"%string /\ is_None bad = false) /\
        sock_closed (Source.ssock (snd (Source.close s))) = sock_closed (Source.ssock s) /\
        sock_closed (Source.tsock (snd (Source.close s))) = sock_closed (Source.tsock s)
    | Raise ZMQError =>
        extra = [] /\
        sock_closed (Source.ssock (snd (Source.close s))) = sock_closed (Source.ssock s) /\
        sock_closed (Source.tsock (snd (Source.close s))) = sock_closed (Source.tsock s) /\
        (sock_closed (Source.ssock s) = true \/ sock_closed (Source.tsock s) = true)
    | Raise StopIteration => False
    | OutOfFuel => False
    end.
Proof.
  intros Hcl. rewrite (Source_close_finish s Hcl). unfold Source_finish, bind.
  pose proof (Source_drain_spec _ (Source.set_closed true s) eq_refl) as P.
  destruct (Source.drain (Source.set_closed true s)) as [o s1].
  destruct P as [served [Hall [Hpos P]]]. exists served.
  destruct o as [u|[msg bad| |]| |]; try contradiction.
  - destruct P as [rest [Hrx [-> Hle]]].
    destruct (Source_inform_sink_cases
                (Source_drained (Source.set_closed true s) served rest []))
      as [Hn [extra [Htr Hcase]]].
    exists extra. split; [exact Hall|]. split; [exact Hpos|].
    split; [rewrite Hn; reflexivity|].
    split; [rewrite Htr; simpl; rewrite app_nil_r, <- app_assoc; reflexivity|].
    rewrite Hn.
    destruct (fst (Source.inform_sink
                     (Source_drained (Source.set_closed true s) served rest [])))
      as [u'|[msg bad| |]| |]; try contradiction.
    + destruct Hcase as [-> [H1 H2]]. auto.
    + destruct Hcase as [-> [-> [Hb [H1 H2]]]].
      split; [right; auto|]. split; [exact H1|].
      rewrite H2. destruct (sock_closed (Source.tsock s)) eqn:Ht; [|reflexivity].
      exfalso. destruct s as [sa ta sk [q c] n cl tr]. simpl in Ht. subst c.
      unfold Source.inform_sink in H2. discriminate H2.
    + destruct Hcase as [-> [-> Ht]]. auto.
    + destruct Hcase as [-> [H1 H2]]. split; [right; auto|]. split; [exact H1|].
      rewrite H2. destruct (sock_closed (Source.tsock s)) eqn:Ht; [|reflexivity].
      exfalso. destruct s as [sa ta sk [q c] n cl tr]. simpl in Ht. subst c.
      unfold Source.inform_sink in H2. discriminate H2.
  - destruct P as [rest [Hrx [-> [Hb [-> Hopen]]]]]. exists [Recv Ssock bad]. simpl.
    repeat split; auto.
  - destruct P as [-> [-> Hs]]. exists []. simpl. rewrite app_nil_r.
    repeat split; auto; try (unfold joins, exits; rewrite !count_nil; lia).
  - destruct P as [Hrx [-> [Hlt Hopen]]]. exists []. simpl.
    repeat split; auto; try (rewrite Hopen; reflexivity).
Qed.

Lemma drained_requests_on_reply_socket (served : list pyobj) :
  sent_on Tsock (flat_map drained_request served) = [] /\
  forall k, ~ In (Close k) (flat_map drained_request served).
Proof.
  induction served as [|r served [IH1 IH2]]; simpl; [auto|].
  split; [exact IH1|]. intros k [H|[H|H]]; try discriminate H. exact (IH2 k H).
Qed.

Lemma new_events_same (tr : list event) : new_events tr tr = [].
Proof. rewrite <- (app_nil_r tr) at 2. apply new_events_app. Qed.

(** X11.  [Source.close()] releases the source's sockets exactly when it
    returns.  On a source not yet closed whose sockets are open, each socket
    is closed afterwards if and only if the call returned; when it raises
    ([Error] on an unknown request or on a reply of the sink other than
    [None]) or waits for ever, both sockets stay open, and no later
    [close()] closes them, the source being marked closed. *)
Theorem Source_close_releases_sockets_iff_it_returns :
  forall s : Source.t,
    Source.closed s = false ->
    sock_closed (Source.ssock s) = false ->
    sock_closed (Source.tsock s) = false ->
    let r := Source.close s in
    (fst r = Ok tt <-> sock_closed (Source.ssock (snd r)) = true) /\
    (fst r = Ok tt <-> sock_closed (Source.tsock (snd r)) = true) /\
    (forall k, In (Close k) (new_events (Source.trace s) (Source.trace (snd r))) ->
               fst r = Ok tt) /\
    Source.close (snd r) = (Ok tt, snd r).
Proof.
  intros s Hcl Hs Ht r.
  destruct (Source_close_cases s Hcl) as [served [extra [_ [_ [_ [Htr Hcase]]]]]].
  fold r in Htr, Hcase.
  assert (Hlast : Source.close (snd r) = (Ok tt, snd r)).
  { apply Source_close_closed. apply Source_close_sets_closed. }
  destruct (drained_requests_on_reply_socket served) as [_ Hnc].
  assert (Hin : forall k, In (Close k) (new_events (Source.trace s) (Source.trace (snd r))) ->
                          In (Close k) extra).
  { intros k. rewrite Htr, new_events_app. intros H.
    apply in_app_or in H as [H|H]; [exfalso; exact (Hnc k H)|exact H]. }
  destruct (fst r) as [u|[msg bad| |]| |]; try contradiction; try destruct u.
  - destruct Hcase as [_ [_ [H1 H2]]]. repeat split; auto.
  - destruct Hcase as [Hex [H1 H2]]. rewrite H1, H2, Hs, Ht.
    repeat split; try discriminate; auto.
    intros k H. apply Hin in H. exfalso.
    destruct Hex as [[-> _]|[_ [-> _]]]; simpl in H; intuition discriminate.
  - destruct Hcase as [_ [_ [_ [H|H]]]]; congruence.
  - destruct Hcase as [Hex [H1 H2]]. rewrite H1, H2, Hs, Ht.
    repeat split; try discriminate; auto.
    intros k H. apply Hin in H. exfalso.
    destruct Hex as [[_ ->]|[_ ->]]; simpl in H; intuition discriminate.
Qed.

(** Nobody registered, and the sink acknowledges the exit of the source. *)
Lemma Source_close_releases_sockets_iff_it_returns_witness :
  sock_closed
    (Source.ssock
       (snd (Source.close (Source.init "tcp://a"%string "tcp://b"%string [] [PyNone])))) =
  true.
Proof.
  exact (proj1 (proj1
           (Source_close_releases_sockets_iff_it_returns
              (Source.init "tcp://a"%string "tcp://b"%string [] [PyNone])
              eq_refl eq_refl eq_refl)) eq_refl).
Defined.

(** X12.  Unlike [Source.send], [Source.close()] cannot drive the count
    below zero, its loop taking requests only while the count is positive:
    from a non-negative count the count it leaves is non-negative, however
    the call ends, and it is exactly 0 when the call, made on a source not
    yet closed, returns. *)
Theorem Source_close_keeps_count_nonnegative :
  forall s : Source.t,
    0 <= Source.nworkers s ->
    0 <= Source.nworkers (snd (Source.close s)) /\
    (Source.closed s = false -> fst (Source.close s) = Ok tt ->
     Source.nworkers (snd (Source.close s)) = 0).
Proof.
  intros s Hn. destruct (Source.closed s) eqn:Hcl.
  - rewrite (Source_close_closed s Hcl). split; [exact Hn|discriminate].
  - destruct (Source_close_cases s Hcl) as [served [extra [_ [Hpos [Hcnt [_ Hcase]]]]]].
    assert (H0 : 0 <= Source.nworkers (snd (Source.close s))).
    { rewrite Hcnt. destruct served as [|c served].
      - unfold joins, exits. rewrite !count_nil. lia.
      - apply positive_before_end; [exact Hpos|discriminate]. }
    split; [exact H0|]. intros _ HOk. rewrite HOk in Hcase.
    destruct Hcase as [Hle _]. lia.
Qed.

(** One worker registered; an exit it did not send comes after its own. *)
Lemma Source_close_keeps_count_nonnegative_witness :
  0 <= Source.nworkers
         (snd (Source.close
                 (Source.mk "tcp://a"%string "tcp://b"%string
                    (mkSocket [PyInst WorkerExitedMessage; PyInst WorkerExitedMessage] false)
                    (mkSocket [PyNone] false) 1 false []))).
Proof.
  refine (proj1 (Source_close_keeps_count_nonnegative
                   (Source.mk "tcp://a"%string "tcp://b"%string
                      (mkSocket [PyInst WorkerExitedMessage; PyInst WorkerExitedMessage]
                         false)
                      (mkSocket [PyNone] false) 1 false [])
                   _)).
  simpl. lia.
Defined.

(** X13.  [Source.close()] tells the sink last, and once at most.  Whatever
    the call meets, what it sends to the sink is nothing or one
    [SourceExitedMessage], the latter only with a count that is not
    positive; it is sent whenever the call returns on a source not yet
    closed, and never when the call raises on an unknown request: the sink
    is then never told, the source being marked closed. *)
Theorem Source_close_informs_sink_once_after_draining :
  forall s : Source.t,
    let r := Source.close s in
    let told := sent_on Tsock (new_events (Source.trace s) (Source.trace (snd r))) in
    (told = [] \/
     told = [PyInst SourceExitedMessage] /\ Source.nworkers (snd r) <= 0) /\
    (Source.closed s = false -> fst r = Ok tt -> told = [PyInst SourceExitedMessage]) /\
    (forall bad, fst r = Raise (Error "Invalid request"%string bad) -> told = []).
Proof.
  intros s r told. destruct (Source.closed s) eqn:Hcl.
  - unfold told, r. rewrite (Source_close_closed s Hcl). simpl.
    rewrite new_events_same. repeat split; auto; discriminate.
  - destruct (Source_close_cases s Hcl) as [served [extra [_ [_ [_ [Htr Hcase]]]]]].
    fold r in Htr, Hcase.
    destruct (drained_requests_on_reply_socket served) as [Hnt _].
    assert (Htold : told = sent_on Tsock extra).
    { unfold told. rewrite Htr, new_events_app, sent_on_app, Hnt. reflexivity. }
    rewrite Htold.
    destruct (fst r) as [u|[msg bad| |]| |]; try contradiction; try destruct u.
    + destruct Hcase as [Hle [-> _]]. simpl. repeat split; auto; discriminate.
    + destruct Hcase as [[[-> [-> _]]|[Hle [-> [-> _]]]] _]; simpl;
        repeat split; auto; discriminate.
    + destruct Hcase as [-> _]. simpl. repeat split; auto; discriminate.
    + destruct Hcase as [[[_ ->]|[Hle ->]] _]; simpl; repeat split; auto; discriminate.
Qed.

(** A source with one worker registered meets a request it does not know. *)
Lemma Source_close_informs_sink_once_after_draining_witness :
  sent_on Tsock
    (new_events []
       (Source.trace
          (snd (Source.close
                  (Source.mk "tcp://a"%string "tcp://b"%string
                     (mkSocket [PyInt 3] false) (mkSocket [PyNone] false) 1 false []))))) =
  [].
Proof.
  refine (proj2 (proj2
            (Source_close_informs_sink_once_after_draining
               (Source.mk "tcp://a"%string "tcp://b"%string
                  (mkSocket [PyInt 3] false) (mkSocket [PyNone] false) 1 false [])))
            (PyInt 3) _).
  reflexivity.
Defined.

(** ** One worker, one task, one result *)

(** X14.  A whole session in which every endpoint is fed exactly what the
    others send.  The worker joins, asks for a task, gets [T], sends the
    result [R] and closes; the source, given what the worker sent to it,
    hands out [T] in [send(T)] and then drains, tells the sink and returns
    from [close()]; the sink, given what the worker and then the source sent
    to it, yields [R] and nothing else and ends.  Every call returns, the
    answers each side gets are the ones the other side sent, and both counts
    are back at 0. *)
Theorem one_worker_session_runs_to_completion :
  forall (sa ta : string) (T R : pyobj),
    isinstance T NoMoreJobsMessage = false ->
    sink_control R = false ->
    let from_source := [PyNone; T; PyNone] in
    let from_sink := [PyNone; PyNone; PyNone] in
    let r0 := Worker.init sa ta from_source from_sink in
    let r1 := Worker.next (snd r0) in
    let r2 := Worker.send R (snd r1) in
    let r3 := Worker.close (snd r2) in
    let to_source := sent_on Ssock (Worker.trace (snd r3)) in
    let to_sink := sent_on Tsock (Worker.trace (snd r3)) in
    let q1 := Source.send T (Source.init sa ta to_source [PyNone]) in
    let q2 := Source.close (snd q1) in
    let p := Sink_list (Sink.init ta (to_sink ++ sent_on Tsock (Source.trace (snd q2)))) in
    (fst r0 = Ok tt /\ fst r1 = Ok T /\ fst r2 = Ok tt /\ fst r3 = Ok tt) /\
    (to_source = [PyInst WorkerJoinMessage; PyNone; PyInst WorkerExitedMessage] /\
     to_sink = [PyInst WorkerJoinMessage; R; PyInst WorkerExitedMessage]) /\
    (fst q1 = Ok tt /\ fst q2 = Ok tt /\
     sent_on Ssock (Source.trace (snd q2)) = from_source /\
     sent_on Tsock (Source.trace (snd q2)) = [PyInst SourceExitedMessage] /\
     Source.nworkers (snd q2) = 0) /\
    (fst p = Ok [R] /\
     sent_on Tsock (Sink.trace (snd p)) = from_sink ++ [PyNone] /\
     Sink.nworkers (snd p) = 0 /\ rx (Sink.tsock (snd p)) = []).
Proof.
  intros sa ta T R HT HR.
  destruct T as [| | | | | |c]; try destruct c; try (cbv in HT; discriminate HT);
    destruct R as [| | | | | |c]; try destruct c; try (cbv in HR; discriminate HR);
    vm_compute; repeat split.
Qed.

(** The task is a string and the result a list. *)
Lemma one_worker_session_runs_to_completion_witness :
  fst (Sink_list
         (Sink.init "tcp://b"%string
            [PyInst WorkerJoinMessage; PyList [PyInt 1]; PyInst WorkerExitedMessage;
             PyInst SourceExitedMessage])) = Ok [PyList [PyInt 1]].
Proof.
  exact (proj1 (proj2 (proj2 (proj2
           (one_worker_session_runs_to_completion
              "tcp://a"%string "tcp://b"%string (PyStr "job-1"%string) (PyList [PyInt 1])
              eq_refl eq_refl))))).
Defined.

(** ** cache.fnhash *)

Lemma remove_whitespace_has_none (s : string) (c : Ascii.ascii) :
  In c (list_ascii_of_string (cache.remove_whitespace s)) -> cache.isspace c = false.
Proof.
  induction s as [|c' s IH]; simpl; [contradiction|].
  destruct (cache.isspace c') eqn:E; [exact IH|].
  simpl. intros [H|H]; [subst c'; exact E|exact (IH H)].
Qed.

(** X15.  The hash [fnhash] returns holds no whitespace character, whatever
    the source lines, the docstring and the name of the function are. *)
Theorem fnhash_holds_no_whitespace :
  forall (fn : cache.function) (c : Ascii.ascii),
    In c (list_ascii_of_string (cache.fnhash fn)) -> cache.isspace c = false.
Proof. intros fn c. unfold cache.fnhash. apply remove_whitespace_has_none. Qed.

(** The first character of the hash of a one-line function. *)
Lemma fnhash_holds_no_whitespace_witness :
  cache.isspace (Ascii.ascii_of_nat 100) = false.
Proof.
  refine (fnhash_holds_no_whitespace
            (cache.mkFunction ["def g(x): return x"%string] None "g"%string)
            (Ascii.ascii_of_nat 100) _).
  vm_compute. left. reflexivity.
Defined.

Lemma replace_once_empty (s : string) : cache.replace_once ""%string ""%string s = s.
Proof. destruct s; reflexivity. Qed.

(** X16.  The hash does not see comment lines and blank lines: a source line
    that is empty once stripped, or whose first character once stripped is
    the hash sign, can be added anywhere among the source lines of a
    function without changing its [fnhash], docstring and name being the
    same.  Nor does an empty docstring differ from no docstring. *)
Theorem fnhash_ignores_comment_and_blank_lines :
  forall (before after : list string) (l : string) (doc : option string) (name : string),
    cache.strip l = ""%string \/
    (exists rest, cache.strip l = String (Ascii.ascii_of_nat 35) rest) ->
    cache.fnhash (cache.mkFunction (before ++ l :: after) doc name) =
    cache.fnhash (cache.mkFunction (before ++ after) doc name) /\
    cache.fnhash (cache.mkFunction (before ++ after) (Some ""%string) name) =
    cache.fnhash (cache.mkFunction (before ++ after) None name).
Proof.
  intros before after l doc name Hl.
  assert (Hc : cache.is_code_line l = false).
  { unfold cache.is_code_line. destruct Hl as [->|[rest ->]]; reflexivity. }
  split.
  - unfold cache.fnhash. simpl. rewrite !filter_app. simpl. rewrite Hc. reflexivity.
  - unfold cache.fnhash. simpl. rewrite replace_once_empty. reflexivity.
Qed.

(** A comment added between the two lines of a function. *)
Lemma fnhash_ignores_comment_and_blank_lines_witness :
  cache.fnhash
    (cache.mkFunction
       ["def g(x):"%string; "   # twice x"%string; "  return x + x"%string]
       None "g"%string) =
  cache.fnhash
    (cache.mkFunction ["def g(x):"%string; "  return x + x"%string] None "g"%string).
Proof.
  refine (proj1 (fnhash_ignores_comment_and_blank_lines
                   ["def g(x):"%string] ["  return x + x"%string] "   # twice x"%string
                   None "g"%string _)).
  right. eexists. vm_compute. reflexivity.
Defined.

(** ** Joining a source that closes with no worker registered *)

(** X17.  A worker that tries to join a source being closed with no worker
    registered is never answered.  [Source.close()] finds the count not
    positive, takes nothing from the reply socket and sends nothing on it,
    whatever the sink does: the join stays pending, and the constructor of
    the worker, having sent its join, waits for ever. *)
Theorem worker_joining_an_idle_closing_source_waits_for_ever :
  forall (sa ta : string) (s : Source.t) (from_sink : list pyobj),
    Source.closed s = false ->
    Source.nworkers s <= 0 ->
    let rs := Source.close (Source_deliver [PyInst WorkerJoinMessage] s) in
    let from_source := sent_on Ssock (new_events (Source.trace s) (Source.trace (snd rs))) in
    from_source = [] /\
    rx (Source.ssock (snd rs)) = [PyInst WorkerJoinMessage] /\
    Worker.new sa ta from_source from_sink = Blocked /\
    Worker.trace (snd (Worker.init sa ta from_source from_sink)) =
    [Send Ssock (PyInst WorkerJoinMessage)].
Proof.
  intros sa ta s from_sink Hcl Hn rs from_source.
  assert (E : from_source = [] /\ rx (Source.ssock (snd rs)) = [PyInst WorkerJoinMessage]).
  { unfold from_source, rs. rewrite Source_close_unfold by exact Hcl.
    rewrite Source_drain_unfold.
    change (Source.nworkers (Source.set_closed true (Source_deliver _ s)))
      with (Source.nworkers s).
    apply Z.ltb_ge in Hn. rewrite Hn.
    destruct s as [sa' ta' sk [q c] n cl tr]. unfold Source.inform_sink.
    destruct c; [simpl; rewrite new_events_same; auto|].
    destruct q as [|rep q]; [simpl; rewrite new_events_app; auto|].
    run_body. destruct (is_None rep); simpl;
      rewrite <- !app_assoc, new_events_app; auto. }
  destruct E as [E1 E2]. rewrite E1. repeat split; auto.
Qed.

(** A fresh source closed at once, a worker knocking. *)
Lemma worker_joining_an_idle_closing_source_waits_for_ever_witness :
  Worker.new "tcp://a"%string "tcp://b"%string
    (sent_on Ssock
       (new_events []
          (Source.trace
             (snd (Source.close
                     (Source_deliver [PyInst WorkerJoinMessage]
                        (Source.init "tcp://a"%string "tcp://b"%string [] [PyNone]))))))) 
    [PyNone] = Blocked.
Proof.
  refine (proj1 (proj2 (proj2
            (worker_joining_an_idle_closing_source_waits_for_ever
               "tcp://a"%string "tcp://b"%string
               (Source.init "tcp://a"%string "tcp://b"%string [] [PyNone])
               [PyNone] eq_refl _)))).
  simpl. lia.
Defined.

(** ** Flags, scope exit and finalisation *)

Lemma Source_send_closed (task : pyobj) (q : list pyobj) :
  forall s : Source.t,
    rx (Source.ssock s) = q ->
    Source.closed (snd (Source.send task s)) = Source.closed s.
Proof.
  induction q as [|req q IH]; intros s Hrx; rewrite Source_send_unfold, Hrx;
    destruct (sock_closed (Source.ssock s)); try reflexivity.
  cbv zeta.
  destruct (is_None req); [destruct s; reflexivity|].
  destruct (isinstance req WorkerJoinMessage);
    [rewrite IH by reflexivity; destruct s; reflexivity|].
  destruct (isinstance req WorkerExitedMessage);
    [rewrite IH by reflexivity; destruct s; reflexivity|].
  destruct s; reflexivity.
Qed.

(** X18.  No method of the three classes ever resets a flag: a source, sink
    or worker that is marked closed is still marked closed after any of its
    methods, however the call ends, and a sink that has seen the source exit
    still knows it after [next] and [close]. *)
Theorem closed_flags_never_revert :
  (forall (s : Source.t) (task : pyobj),
      Source.closed s = true ->
      Source.closed (snd (Source.send task s)) = true /\
      Source.closed (snd (Source.close s)) = true) /\
  (forall k : Sink.t,
      (Sink.closed k = true ->
       Sink.closed (snd (Sink.next k)) = true /\ Sink.closed (snd (Sink.close k)) = true) /\
      (Sink.source_closed k = true ->
       Sink.source_closed (snd (Sink.next k)) = true /\
       Sink.source_closed (snd (Sink.close k)) = true)) /\
  (forall (w : Worker.t) (R : pyobj),
      Worker.closed w = true ->
      Worker.closed (snd (Worker.next w)) = true /\
      Worker.closed (snd (Worker.send R w)) = true /\
      Worker.closed (snd (Worker.close w)) = true).
Proof.
  split; [|split].
  - intros s task H. split; [|apply Source_close_sets_closed].
    rewrite (Source_send_closed task _ s eq_refl). exact H.
  - intros k.
    destruct (Sink_next_state _ k eq_refl) as [consumed [rest [_ Hst]]]. split.
    + intros H. split; [rewrite Hst; exact H|apply Sink_close_sets_closed].
    + intros H. split; [rewrite Hst; simpl; rewrite H; reflexivity|].
      destruct k as [ta tk n sc cl tr]. simpl in H. subst sc.
      unfold Sink.close. simpl. destruct cl; reflexivity.
  - intros w R H. split; [|split; [|apply Worker_close_sets_closed]].
    + rewrite Worker_next_unfold.
      destruct (sock_closed (Worker.ssock w)); [exact H|].
      destruct (rx (Worker.ssock w)); exact H.
    + rewrite Worker_send_unfold.
      destruct (sock_closed (Worker.tsock w)); [exact H|].
      destruct (rx (Worker.tsock w)); exact H.
Qed.

(** A closed worker that is asked for a task all the same. *)
Lemma closed_flags_never_revert_witness :
  Worker.closed
    (snd (Worker.next
            (Worker.mk "tcp://a"%string "tcp://b"%string (mkSocket [PyInt 1] false)
               (mkSocket [] false) true []))) = true.
Proof.
  exact (proj1 (proj2 (proj2 closed_flags_never_revert)
                  (Worker.mk "tcp://a"%string "tcp://b"%string (mkSocket [PyInt 1] false)
                     (mkSocket [] false) true [])
                  PyNone eq_refl)).
Defined.

(** X19.  Leaving a [with] block and finalisation run [close()] and nothing
    else: after a first [close()], however it ended, [__exit__] and
    [__del__] of a source, sink or worker return at once and leave the
    object as it is, so that a handshake is never run twice; and whenever
    [__exit__] returns, it returns a false value, whatever exception it was
    given: it never swallows the exception of the block. *)
Theorem scope_exit_and_finalisation_close_once :
  (forall (s : Source.t) (exc : option exn),
      let s1 := snd (Source.close s) in
      Source.__exit__ exc s1 = (Ok false, s1) /\ Source.__del__ s1 = (Ok tt, s1) /\
      (forall b s2, Source.__exit__ exc s = (Ok b, s2) -> b = false)) /\
  (forall (k : Sink.t) (exc : option exn),
      let k1 := snd (Sink.close k) in
      Sink.__exit__ exc k1 = (Ok false, k1) /\ Sink.__del__ k1 = (Ok tt, k1) /\
      (forall b k2, Sink.__exit__ exc k = (Ok b, k2) -> b = false)) /\
  (forall (w : Worker.t) (exc : option exn),
      let w1 := snd (Worker.close w) in
      Worker.__exit__ exc w1 = (Ok false, w1) /\ Worker.__del__ w1 = (Ok tt, w1) /\
      (forall b w2, Worker.__exit__ exc w = (Ok b, w2) -> b = false)).
Proof.
  split; [|split].
  - intros s exc s1.
    assert (H : Source.close s1 = (Ok tt, s1)).
    { apply Source_close_closed, Source_close_sets_closed. }
    unfold Source.__exit__, Source.__del__, bind, ret. rewrite H.
    repeat split. intros b s2.
    destruct (Source.close s) as [[u|e| |] s']; intros E; inversion E; reflexivity.
  - intros k exc k1.
    assert (H : Sink.close k1 = (Ok tt, k1)).
    { apply Sink_close_closed, Sink_close_sets_closed. }
    unfold Sink.__exit__, Sink.__del__, bind, ret. rewrite H.
    repeat split. intros b k2.
    destruct (Sink.close k) as [[u|e| |] k']; intros E; inversion E; reflexivity.
  - intros w exc w1.
    assert (H : Worker.close w1 = (Ok tt, w1)).
    { apply Worker_close_closed, Worker_close_sets_closed. }
    unfold Worker.__exit__, Worker.__del__, bind, ret. rewrite H.
    repeat split. intros b w2.
    destruct (Worker.close w) as [[u|e| |] w']; intros E; inversion E; reflexivity.
Qed.

(** A sink leaving its block on an exception. *)
Lemma scope_exit_and_finalisation_close_once_witness :
  false = false.
Proof.
  refine (proj2 (proj2 (proj1 (proj2 scope_exit_and_finalisation_close_once)
                          (Sink.init "tcp://b"%string [])
                          (Some StopIteration)))
            false
            (Sink.mk "tcp://b"%string (mkSocket [] true) 0 false true [Sleep 15; Close Tsock])
            _).
  reflexivity.
Defined.

(** * The loops, request by request *)

(** ** Sink.next: the condition before each receive *)

Lemma running_negb (k : Sink.t) :
  Sink.running k = negb (Sink.source_closed k && (Sink.nworkers k <=? 0)).
Proof.
  unfold Sink.running. destruct (Sink.source_closed k); simpl; [|reflexivity].
  destruct (Z.ltb_spec 0 (Sink.nworkers k)); destruct (Z.leb_spec (Sink.nworkers k) 0);
    try reflexivity; lia.
Qed.

Lemma Sink_next_step (k : Sink.t) :
  Sink.next k =
  if Sink.source_closed k && (Sink.nworkers k <=? 0) then (Raise StopIteration, k)
  else if sock_closed (Sink.tsock k) then (Raise ZMQError, k)
  else match rx (Sink.tsock k) with
       | [] => (Blocked, k)
       | m :: q => if sink_control m then Sink.next (Sink_received k [m] q)
                   else (Ok m, Sink_received k [m] q)
       end.
Proof.
  pose proof (running_negb k) as R.
  destruct (Sink.source_closed k && (Sink.nworkers k <=? 0)); simpl in R.
  - rewrite Sink_next_unfold, R. reflexivity.
  - destruct (sock_closed (Sink.tsock k)) eqn:Hopen.
    + rewrite Sink_next_unfold, R, Hopen. reflexivity.
    + destruct (rx (Sink.tsock k)) as [|m q] eqn:Hrx.
      * rewrite Sink_next_unfold, R, Hopen, Hrx. reflexivity.
      * apply Sink_next_receive; assumption.
Qed.

Lemma Sink_next_checks (q : list pyobj) :
  forall k : Sink.t,
    rx (Sink.tsock k) = q ->
    exists consumed rest,
      rx (Sink.tsock k) = consumed ++ rest /\
      snd (Sink.next k) = Sink_received k consumed rest /\
      (forall p m q', consumed = p ++ m :: q' ->
         Sink.running (Sink_received k p (m :: q' ++ rest)) = true) /\
      match fst (Sink.next k) with
      | Ok result =>
          exists ctrl, consumed = ctrl ++ [result] /\
                       forallb sink_control ctrl = true /\ sink_control result = false
      | Raise StopIteration =>
          forallb sink_control consumed = true /\ Sink.running (snd (Sink.next k)) = false
      | Blocked =>
          forallb sink_control consumed = true /\ Sink.running (snd (Sink.next k)) = true
      | Raise ZMQError =>
          consumed = [] /\ Sink.running k = true /\ sock_closed (Sink.tsock k) = true
      | _ => False
      end.
Proof.
  induction q as [|c q IH]; intros k Hrx;
    (destruct (Sink.running k) eqn:R;
     [destruct (sock_closed (Sink.tsock k)) eqn:Hopen|]).
  1, 4: (assert (E : Sink.next k = (Raise ZMQError, k))
           by (rewrite Sink_next_unfold, R, Hopen; reflexivity);
         exists [], (rx (Sink.tsock k)); rewrite E; simpl;
         split; [reflexivity|]; split; [symmetry; apply Sink_received_nil|];
         split; [intros p m q' H; destruct p; discriminate H|auto]).
  2, 4: (assert (E : Sink.next k = (Raise StopIteration, k))
           by (rewrite Sink_next_unfold, R; reflexivity);
         exists [], (rx (Sink.tsock k)); rewrite E; simpl;
         split; [reflexivity|]; split; [symmetry; apply Sink_received_nil|];
         split; [intros p m q' H; destruct p; discriminate H|auto]).
  - assert (E : Sink.next k = (Blocked, k))
      by (rewrite Sink_next_unfold, R, Hopen, Hrx; reflexivity).
    exists [], (rx (Sink.tsock k)). rewrite E. simpl.
    split; [reflexivity|]. split; [symmetry; apply Sink_received_nil|].
    split; [intros p m q' H; destruct p; discriminate H|auto].
  - rewrite (Sink_next_receive k c q R Hopen Hrx).
    destruct (sink_control c) eqn:Hc.
    + destruct (IH (Sink_received k [c] q) eq_refl) as [consumed [rest [H1 [H2 [H3 H4]]]]].
      simpl in H1.
      assert (Rk1 : forall p m q', consumed = p ++ m :: q' ->
                Sink.running (Sink_received k (c :: p) (m :: q' ++ rest)) = true).
      { intros p m q' E. rewrite <- Sink_received_cons with (q := q). exact (H3 p m q' E). }
      clear H3.
      destruct (Sink.next (Sink_received k [c] q)) as [o k']. simpl in H2, H4. simpl.
      exists (c :: consumed), rest.
      split; [rewrite Hrx, H1; reflexivity|].
      split; [rewrite H2; apply Sink_received_cons|].
      split.
      * intros p m q' E. destruct p as [|x p]; simpl in E; injection E as E1 E2.
        -- subst m q'. replace (c :: consumed ++ rest) with (rx (Sink.tsock k))
             by (rewrite Hrx, H1; reflexivity).
           rewrite Sink_received_nil. exact R.
        -- subst x. exact (Rk1 p m q' E2).
      * destruct o as [result|[msg bad| |]| |]; try contradiction.
        -- destruct H4 as [ctrl [-> [Ha Hb]]]. exists (c :: ctrl).
           simpl. rewrite Hc. auto.
        -- destruct H4 as [Ha Hb]. simpl. rewrite Hc. auto.
        -- destruct H4 as [_ [_ H4]]. simpl in H4. rewrite Hopen in H4. discriminate H4.
        -- destruct H4 as [Ha Hb]. simpl. rewrite Hc. auto.
    + exists [c], q. simpl.
      split; [exact Hrx|]. split; [reflexivity|]. split.
      * intros p m q' E. destruct p as [|x [|y p]]; simpl in E; try discriminate E.
        injection E as E1 E2. subst m q'. simpl. rewrite <- Hrx.
        rewrite Sink_received_nil. exact R.
      * exists []. auto.
Qed.

(** C5, amended.  [Sink.next] ends the sequence without receiving anything
    exactly when the source-closed flag is true and the worker count is not
    positive, which is a count of 0 for the non-negative counts.  Whenever a
    call ends the sequence, the flag and the count are so in the state it
    leaves; in any other state the pending message is received first.  The
    condition is evaluated before each receive: a call tests it, and after
    every control message it has received and acknowledged it goes on as a
    call on the state so updated.  So for the messages [consumed] a call
    takes from the pending ones, the condition was false before each of
    them, and the call ends the sequence exactly when all of them were
    control messages and the condition holds in the state they leave, with
    the messages after them still pending. *)
Theorem Sink_next_stops_iff_source_closed_and_count_not_positive :
  forall k : Sink.t,
    (Sink.next k = (Raise StopIteration, k) <->
     Sink.source_closed k = true /\ Sink.nworkers k <= 0) /\
    (0 <= Sink.nworkers k ->
     (Sink.next k = (Raise StopIteration, k) <->
      Sink.source_closed k = true /\ Sink.nworkers k = 0)) /\
    (forall k', Sink.next k = (Raise StopIteration, k') ->
                Sink.source_closed k' = true /\ Sink.nworkers k' <= 0) /\
    (forall result q,
        ~ (Sink.source_closed k = true /\ Sink.nworkers k <= 0) ->
        sock_closed (Sink.tsock k) = false ->
        rx (Sink.tsock k) = result :: q ->
        exists tl, Sink.trace (snd (Sink.next k)) =
                   Sink.trace k ++ Recv Tsock result :: Send Tsock PyNone :: tl) /\
    Sink.next k =
    (if Sink.source_closed k && (Sink.nworkers k <=? 0) then (Raise StopIteration, k)
     else if sock_closed (Sink.tsock k) then (Raise ZMQError, k)
     else match rx (Sink.tsock k) with
          | [] => (Blocked, k)
          | m :: q => if sink_control m then Sink.next (Sink_received k [m] q)
                      else (Ok m, Sink_received k [m] q)
          end) /\
    (exists consumed rest,
        rx (Sink.tsock k) = consumed ++ rest /\
        snd (Sink.next k) = Sink_received k consumed rest /\
        (forall p m q, consumed = p ++ m :: q ->
           ~ (Sink.source_closed (Sink_received k p (m :: q ++ rest)) = true /\
              Sink.nworkers (Sink_received k p (m :: q ++ rest)) <= 0)) /\
        (fst (Sink.next k) = Raise StopIteration <->
         forallb sink_control consumed = true /\
         Sink.source_closed (snd (Sink.next k)) = true /\
         Sink.nworkers (snd (Sink.next k)) <= 0)).
Proof.
  intros k.
  assert (Hiff : Sink.next k = (Raise StopIteration, k) <-> exhausted k).
  { split; [apply Sink_next_stop_exhausted|apply Sink_next_exhausted]. }
  split; [exact Hiff|]. split; [|split; [|split; [|split]]].
  - intros Hn. rewrite Hiff. unfold exhausted. split; intros [H1 H2]; split; auto; lia.
  - intros k'. apply Sink_next_stop_exhausted.
  - intros result q Hrun Hopen Hrx.
    assert (R : Sink.running k = true).
    { destruct (Sink.running k) eqn:R; [reflexivity|].
      apply running_false_iff in R. contradiction. }
    rewrite Sink_next_unfold, R, Hopen, Hrx. cbv zeta. unfold log. simpl.
    destruct (isinstance result WorkerJoinMessage);
      [|destruct (isinstance result WorkerExitedMessage);
        [|destruct (isinstance result SourceExitedMessage)]].
    1-3: match goal with
         | |- context [Sink.next ?k2] =>
             destruct (Sink_next_trace_extends k2) as [tl ->]; exists tl;
             simpl; rewrite <- !app_assoc; reflexivity
         end.
    exists []. simpl. rewrite <- app_assoc. reflexivity.
  - apply Sink_next_step.
  - destruct (Sink_next_checks _ k eq_refl) as [consumed [rest [H1 [H2 [H3 H4]]]]].
    exists consumed, rest. split; [exact H1|]. split; [exact H2|]. split.
    + intros p m q E Hex. apply running_false_iff in Hex.
      rewrite (H3 p m q E) in Hex. discriminate Hex.
    + fold (exhausted (snd (Sink.next k))). rewrite <- running_false_iff. split.
      * intros Hstop. rewrite Hstop in H4. exact H4.
      * intros [Hall Hrun].
        destruct (fst (Sink.next k)) as [result|[msg bad| |]| |]; try contradiction.
        -- destruct H4 as [ctrl [-> [_ Hres]]]. rewrite forallb_app in Hall.
           apply andb_prop in Hall as [_ Hall]. simpl in Hall.
           rewrite Hres in Hall. discriminate Hall.
        -- reflexivity.
        -- destruct H4 as [-> [R _]]. rewrite H2 in Hrun. simpl in H1. rewrite <- H1 in Hrun.
           rewrite Sink_received_nil in Hrun. rewrite R in Hrun. discriminate Hrun.
        -- destruct H4 as [_ R]. rewrite R in Hrun. discriminate Hrun.
Qed.

(** A sink that saw the source exit and whose two workers left stops, and
    leaves the pending message where it is; and a sink that saw the source
    exit and has one worker left receives that worker's exit, then stops in
    the same call with the message after it still pending. *)
Lemma Sink_next_stops_iff_source_closed_and_count_not_positive_witness :
  Sink.next (Sink.mk "tcp://b"%string (mkSocket [PyInt 1] false) 0 true false []) =
  (Raise StopIteration, Sink.mk "tcp://b"%string (mkSocket [PyInt 1] false) 0 true false []) /\
  Sink.next (Sink.mk "tcp://b"%string
               (mkSocket [PyInst WorkerExitedMessage; PyInt 7] false) 1 true false []) =
  (Raise StopIteration,
   Sink.mk "tcp://b"%string (mkSocket [PyInt 7] false) 0 true false
     [Recv Tsock (PyInst WorkerExitedMessage); Send Tsock PyNone]).
Proof.
  split.
  - apply (proj2 (proj1 (Sink_next_stops_iff_source_closed_and_count_not_positive
                           (Sink.mk "tcp://b"%string (mkSocket [PyInt 1] false) 0 true false [])))).
    split; [reflexivity|simpl; lia].
  - refine (eq_trans
              (proj1 (proj2 (proj2 (proj2 (proj2
                 (Sink_next_stops_iff_source_closed_and_count_not_positive
                    (Sink.mk "tcp://b"%string
                       (mkSocket [PyInst WorkerExitedMessage; PyInt 7] false)
                       1 true false [])))))))
              _).
    apply (proj2 (proj1 (Sink_next_stops_iff_source_closed_and_count_not_positive
                           (Sink.mk "tcp://b"%string (mkSocket [PyInt 7] false) 0 true false
                              [Recv Tsock (PyInst WorkerExitedMessage); Send Tsock PyNone])))).
    split; [reflexivity|simpl; lia].
Defined.

(** ** Source.close: every request of the drain, and the calls after it *)





